(** * Monitoring service: the event handlers of [monitoring_service/server.py]
    and the crash scenario of [tests/monitoring/monitoring_service/test_crash.py].

    The handlers of [MonitoringService] mutate the service object and the
    state database it shares with its tasks, and fail through assertions and
    exceptions.  They are embedded in a state-and-exception monad over the
    service object; Python sets are [gset], the dictionary view
    [state_db.monitor_requests] is a [gmap] keyed by channel identifier. *)

From Stdlib Require Import ZArith Lia.
From stdpp Require Import base option list strings gmap sets.

Local Open Scope Z_scope.

(** ** Data *)

Abbreviation Address := string (only parsing).

(** [raiden_libs.messages.BalanceProof], with the keyword arguments used at
    [server.py:213-221]. *)
Record BalanceProof := mkBalanceProof {
  channel_identifier : Z;
  token_network_address : Address;
  balance_hash : string;
  nonce : Z;
  additional_hash : string;
  chain_id : Z;
  signature : string;
}.

(** [raiden_libs.messages.MonitorRequest]: a balance proof with the
    non-closer's counter-signature and the reward proof. *)
Record MonitorRequest := mkMonitorRequest {
  balance_proof : BalanceProof;
  non_closing_signature : string;
  reward_amount : Z;
  monitor_address : Address;
  reward_proof_signature : string;
}.

(** A decoded log, [event['event']], [event['address']],
    [event['blockNumber']] and [event['args'][...]].  The decoder supplies the
    arguments the handlers read, so they are fields. *)
Record EventArgs := mkEventArgs {
  args_channel_identifier : Z;
  args_closing_participant : Address;
  args_token_network_address : Address;
  args_token_address : Address;
}.

Record Event := mkEvent {
  event : string;
  address : Address;
  blockNumber : Z;
  args : EventArgs;
}.

(** The decoded input of the transaction that emitted the log: [tx[0]] is the
    contract function, [tx[1]] its arguments, of which [on_channel_close]
    reads positions 0 to 4. *)
Record TxData := mkTxData {
  tx_channel_identifier : Z;
  tx_balance_hash : string;
  tx_nonce : Z;
  tx_additional_hash : string;
  tx_signature : string;
}.

Record Tx := mkTx {
  tx_function : string;
  tx_data : TxData;
}.

(** [raiden_contracts.constants.ChannelEvent]. *)
Module ChannelEvent.
Definition OPENED : string := "ChannelOpened".
Definition CLOSED : string := "ChannelClosed".
Definition SETTLED : string := "ChannelSettled".
Definition BALANCE_PROOF_UPDATED : string := "NonClosingBalanceProofUpdated".
End ChannelEvent.

Definition CONTRACT_TOKEN_NETWORK : string := "TokenNetwork".
Definition CONTRACT_TOKEN_NETWORK_REGISTRY : string := "TokenNetworkRegistry".

(** The node handle: [int(web3.version.network)] is the chain id. *)
Record Web3 := mkWeb3 {
  version_network : Z;
}.

(** Modelled from the spec: the state database, [StateDBSqlite]
    ([monitoring_service/state_db.py] is missing).  It persists the chain id,
    the monitoring contract address and the service address it was set up
    with, and the stored monitor requests; [monitor_requests] is the
    dictionary the handlers index by channel identifier. *)
Record Metadata := mkMetadata {
  meta_chain_id : Z;
  meta_monitoring_contract_address : Address;
  meta_server_address : Address;
}.

Record StateDBSqlite := mkStateDB {
  metadata : option Metadata;
  monitor_requests : gmap Z MonitorRequest;
}.

(** Modelled from the spec: the accessors of the missing [StateDBSqlite] that
    the constructor calls; they read what [setup_db] recorded. *)
Definition is_initialized (db : StateDBSqlite) : bool :=
  bool_decide (is_Some (metadata db)).

Definition setup_db (cid : Z) (contract receiver : Address)
    (db : StateDBSqlite) : StateDBSqlite :=
  {| metadata := Some (mkMetadata cid contract receiver);
     monitor_requests := monitor_requests db |}.

Definition db_chain_id (db : StateDBSqlite) : option Z :=
  meta_chain_id <$> metadata db.

Definition server_address (db : StateDBSqlite) : option Address :=
  meta_server_address <$> metadata db.

Definition monitoring_contract_address (db : StateDBSqlite) : option Address :=
  meta_monitoring_contract_address <$> metadata db.

(** Modelled from the spec: [state_db.delete_monitor_request(channel_id)] of
    the missing [StateDBSqlite] removes the entry of the dictionary. *)
Definition delete_monitor_request (channel_id : Z)
    (db : StateDBSqlite) : StateDBSqlite :=
  {| metadata := metadata db;
     monitor_requests := delete channel_id (monitor_requests db) |}.

(** [BlockchainListener] and [BlockchainMonitor] ([monitoring_service.utils]
    is missing): the keyword arguments of the constructor calls in
    [server.py], and whether [start()] was called. *)
Record BlockchainListener := mkListener {
  contract_name : string;
  contract_address : Address;
  listener_required_confirmations : Z;
  listener_poll_interval : Z;
  listener_sync_start_block : Z;
  running : bool;
}.

Definition start (l : BlockchainListener) : BlockchainListener :=
  {| contract_name := contract_name l;
     contract_address := contract_address l;
     listener_required_confirmations := listener_required_confirmations l;
     listener_poll_interval := listener_poll_interval l;
     listener_sync_start_block := listener_sync_start_block l;
     running := true |}.

(** The greenlets of [monitoring_service.tasks] (missing), by the arguments
    of the constructor calls in [server.py].
    [StoreMonitorRequest] also holds a reference to the shared state
    database, which is the service's own [state_db]. *)
Inductive Task :=
| OnChannelClose (monitor_contract : Address) (monitor_request : MonitorRequest)
                 (private_key : string)
| OnChannelSettle (monitor_request : MonitorRequest) (monitor_contract : Address)
                  (private_key : string)
| StoreMonitorRequest (web3 : Web3) (monitor_request : MonitorRequest).

(** The attributes of a [MonitoringService] object. *)
Record MonitoringService := mkMS {
  ms_web3 : Web3;
  ms_private_key : string;
  state_db : StateDBSqlite;
  ms_address : Address;
  monitor_contract : Address;
  registry_address : Address;
  sync_start_block : Z;
  required_confirmations : Z;
  poll_interval : Z;
  open_channels : gset Z;
  token_networks : gset Address;
  token_network_listeners : list BlockchainListener;
  task_list : list Task;
  token_network_registry_listener : option BlockchainListener;
}.

Definition set_state_db (f : StateDBSqlite → StateDBSqlite)
    (ms : MonitoringService) : MonitoringService :=
  mkMS (ms_web3 ms) (ms_private_key ms) (f (state_db ms)) (ms_address ms)
       (monitor_contract ms) (registry_address ms) (sync_start_block ms)
       (required_confirmations ms) (poll_interval ms) (open_channels ms)
       (token_networks ms) (token_network_listeners ms) (task_list ms)
       (token_network_registry_listener ms).

Definition set_open_channels (f : gset Z → gset Z)
    (ms : MonitoringService) : MonitoringService :=
  mkMS (ms_web3 ms) (ms_private_key ms) (state_db ms) (ms_address ms)
       (monitor_contract ms) (registry_address ms) (sync_start_block ms)
       (required_confirmations ms) (poll_interval ms) (f (open_channels ms))
       (token_networks ms) (token_network_listeners ms) (task_list ms)
       (token_network_registry_listener ms).

Definition set_token_networks (f : gset Address → gset Address)
    (ms : MonitoringService) : MonitoringService :=
  mkMS (ms_web3 ms) (ms_private_key ms) (state_db ms) (ms_address ms)
       (monitor_contract ms) (registry_address ms) (sync_start_block ms)
       (required_confirmations ms) (poll_interval ms) (open_channels ms)
       (f (token_networks ms)) (token_network_listeners ms) (task_list ms)
       (token_network_registry_listener ms).

Definition set_token_network_listeners
    (f : list BlockchainListener → list BlockchainListener)
    (ms : MonitoringService) : MonitoringService :=
  mkMS (ms_web3 ms) (ms_private_key ms) (state_db ms) (ms_address ms)
       (monitor_contract ms) (registry_address ms) (sync_start_block ms)
       (required_confirmations ms) (poll_interval ms) (open_channels ms)
       (token_networks ms) (f (token_network_listeners ms)) (task_list ms)
       (token_network_registry_listener ms).

Definition set_task_list (f : list Task → list Task)
    (ms : MonitoringService) : MonitoringService :=
  mkMS (ms_web3 ms) (ms_private_key ms) (state_db ms) (ms_address ms)
       (monitor_contract ms) (registry_address ms) (sync_start_block ms)
       (required_confirmations ms) (poll_interval ms) (open_channels ms)
       (token_networks ms) (token_network_listeners ms) (f (task_list ms))
       (token_network_registry_listener ms).

(** ** Exceptions and the handler monad *)

Inductive exn :=
| AssertionError
| ValueError (msg : string)
| TypeError (msg : string)
| StateDBInvalid (msg : string)
| ServiceNotRegistered (msg : string).

Inductive outcome (A : Type) :=
| Returned (a : A)
| Raised (e : exn).
Arguments Returned {A} a.
Arguments Raised {A} e.

(** A method of the service: it runs on the object, returns or raises, and
    leaves the object as mutated up to that point. *)
Definition M (A : Type) : Type := MonitoringService → outcome A * MonitoringService.

#[global] Instance M_ret : MRet M := λ A a ms, (Returned a, ms).
#[global] Instance M_bind : MBind M := λ A B f m ms,
  match m ms with
  | (Returned a, ms') => f a ms'
  | (Raised e, ms') => (Raised e, ms')
  end.

Definition raise {A} (e : exn) : M A := λ ms, (Raised e, ms).
Definition gets {A} (f : MonitoringService → A) : M A := λ ms, (Returned (f ms), ms).
Definition modify (f : MonitoringService → MonitoringService) : M unit :=
  λ ms, (Returned tt, f ms).
Definition assert (b : bool) : M unit :=
  if b then mret tt else raise AssertionError.

(** A call that returns or raises without touching the service, such as the
    constructor of a message object. *)
Definition call_outcome {A} (o : outcome A) : M A := λ ms, (o, ms).

(** ** External library functions

    [eth_utils], [raiden_libs.utils] and [monitoring_service.utils] are not
    part of the handlers; the development is parametric in them. *)
Class Libs := {
  is_checksum_address : Address → bool;
  is_address : Address → bool;
  is_same_address : Address → Address → bool;
  is_channel_identifier : Z → bool;
  private_key_to_address : string → Address;
  encode_hex : string → string;
  (* [raiden_libs.messages.BalanceProof(channel_identifier=...,
     token_network_address=..., balance_hash=..., nonce=..., additional_hash=...,
     chain_id=..., signature=...)]: the constructor validates its arguments and
     returns the object or raises. *)
  BalanceProof_init : Z → Address → string → Z → string → Z → string → outcome BalanceProof;
  is_service_registered : Web3 → Address → Address → bool;
}.

Section Server.
Context `{Libs}.

(** *** [handle_token_network_created], [server.py:138-167] *)
Definition handle_token_network_created (ev : Event) : M unit :=
  let token_network_address := args_token_network_address (args ev) in
  let token_address := args_token_address (args ev) in
  let event_block_number := blockNumber ev in
  assert (is_checksum_address token_network_address);;
  assert (is_checksum_address token_address);;
  known ← gets token_networks;
  if decide (token_network_address ∉ known) then
    required_confirmations ← gets required_confirmations;
    poll_interval ← gets poll_interval;
    let token_network_listener :=
      {| contract_name := CONTRACT_TOKEN_NETWORK;
         contract_address := token_network_address;
         listener_required_confirmations := required_confirmations;
         listener_poll_interval := poll_interval;
         listener_sync_start_block := event_block_number;
         running := false |} in
    let token_network_listener := start token_network_listener in
    modify (set_token_networks (λ s, s ∪ {[token_network_address]}));;
    modify (set_token_network_listeners (λ l, l ++ [token_network_listener]))
  else mret tt.

(** *** [start_task], [server.py:268-270] *)
Definition start_task (task : Task) : M unit :=
  modify (set_task_list (λ l, l ++ [task])).

(** *** [on_channel_open], [server.py:202-205] *)
Definition on_channel_open (ev : Event) (tx : Tx) : M unit :=
  let channel_id := args_channel_identifier (args ev) in
  modify (set_open_channels (λ s, s ∪ {[channel_id]})).

(** The call [BalanceProof(...)] of [server.py:213-221] on the arguments of the
    transaction, the address of the event and the chain id of the node. *)
Definition close_balance_proof (web3 : Web3) (ev : Event) (tx : Tx) : outcome BalanceProof :=
  let tx_data := tx_data tx in
  BalanceProof_init (tx_channel_identifier tx_data) (address ev) (tx_balance_hash tx_data)
                    (tx_nonce tx_data) (tx_additional_hash tx_data)
                    (version_network web3) (encode_hex (tx_signature tx_data)).

(** *** [on_channel_close], [server.py:207-232].  The balance proof is built
    from the transaction first, and its constructor may raise; once it is
    built, the assertion that it is not [None] holds; the two assertions on
    the event follow. *)
Definition on_channel_close (ev : Event) (tx : Tx) : M unit :=
  let closing_participant := args_closing_participant (args ev) in
  let channel_id := args_channel_identifier (args ev) in
  web3 ← gets ms_web3;
  tx_balance_proof ← call_outcome (close_balance_proof web3 ev tx);
  assert (is_address closing_participant);;
  assert (is_channel_identifier channel_id);;
  db ← gets state_db;
  match monitor_requests db !! channel_id with
  | None => mret tt
  | Some monitor_request =>
      monitor_contract ← gets monitor_contract;
      private_key ← gets ms_private_key;
      start_task (OnChannelClose monitor_contract monitor_request private_key);;
      modify (set_open_channels (λ s, s ∖ {[channel_id]}))
  end.

(** *** [on_channel_settled], [server.py:234-242] *)
Definition on_channel_settled (ev : Event) (tx : Tx) : M unit :=
  let channel_id := args_channel_identifier (args ev) in
  db ← gets state_db;
  match monitor_requests db !! channel_id with
  | None => mret tt
  | Some monitor_request =>
      monitor_contract ← gets monitor_contract;
      private_key ← gets ms_private_key;
      start_task (OnChannelSettle monitor_request monitor_contract private_key);;
      modify (set_state_db (delete_monitor_request (args_channel_identifier (args ev))))
  end.

(** *** [on_channel_event], [server.py:190-200] *)
Definition on_channel_event (ev : Event) (tx : Tx) : M unit :=
  let event_name := event ev in
  if decide (event_name = ChannelEvent.OPENED) then on_channel_open ev tx
  else if decide (event_name = ChannelEvent.CLOSED) then on_channel_close ev tx
  else if decide (event_name = ChannelEvent.SETTLED) then on_channel_settled ev tx
  else mret tt.

(** *** [on_monitor_request], [server.py:253-266] *)
Definition on_monitor_request (monitor_request : MonitorRequest) : M unit :=
  let channel_id := channel_identifier (balance_proof monitor_request) in
  open ← gets open_channels;
  if decide (channel_id ∉ open) then mret tt
  else
    web3 ← gets ms_web3;
    start_task (StoreMonitorRequest web3 monitor_request).

(** *** [on_message_event], [server.py:244-251]: a message of the transport
    is a monitor request or of another type, which is ignored. *)
Inductive Message :=
| MonitorRequestMessage (monitor_request : MonitorRequest)
| OtherMessage.

Definition on_message_event (message : Message) : M unit :=
  match message with
  | MonitorRequestMessage monitor_request => on_monitor_request monitor_request
  | OtherMessage => mret tt
  end.

End Server.

(** ** The constructor, [server.py:50-130] *)
Section Constructor.
Context `{Libs}.

(** [None] stands for Python's [None]: a database that holds no metadata
    agrees with nothing. *)
Definition same_address_opt (recorded : option Address) (a : Address) : bool :=
  from_option (λ r, is_same_address r a) false recorded.

(** The transport handed to the constructor: the callbacks registered on it
    and whether [start()] was called (only [_run] calls it). *)
Record Transport := mkTransport {
  message_callbacks : nat;
  transport_started : bool;
}.

Definition add_message_callback (t : Transport) : Transport :=
  {| message_callbacks := S (message_callbacks t);
     transport_started := transport_started t |}.

(** [__init__] either returns the new object or raises; with the outcome
    come the state database and the transport as the call leaves them
    ([setup_db] writes to the first, the callback is registered on the
    second). *)
Definition __init__ (web3 : Web3) (private_key : string)
    (state_db : StateDBSqlite) (transport : Transport)
    (registry_address monitor_contract_address : Address)
    (sync_start_block required_confirmations poll_interval : Z)
    : outcome MonitoringService * StateDBSqlite * Transport :=
  if negb (is_checksum_address (private_key_to_address private_key))
  then (Raised AssertionError, state_db, transport)
  else
    let transport := add_message_callback transport in
    let address := private_key_to_address private_key in
    (* some sanity checks *)
    let chain_id := version_network web3 in
    let state_db :=
      if negb (is_initialized state_db)
      then setup_db chain_id monitor_contract_address address state_db
      else state_db in
    if negb (bool_decide (db_chain_id state_db = Some chain_id))
    then (Raised (StateDBInvalid "Chain id doesn't match!"), state_db, transport)
    else if negb (same_address_opt (server_address state_db) address)
    then (Raised (StateDBInvalid "Monitor service address doesn't match!"),
          state_db, transport)
    else if negb (same_address_opt (monitoring_contract_address state_db)
                                   monitor_contract_address)
    then (Raised (StateDBInvalid "Monitoring contract address doesn't match!"),
          state_db, transport)
    else if negb (is_service_registered web3 monitor_contract_address address)
    then (Raised (ServiceNotRegistered
                    ("Monitoring service " +:+ address +:+
                     " is not registered in the Monitoring smart contract (" +:+
                     monitor_contract_address +:+ ")")), state_db, transport)
    else
      let token_network_registry_listener :=
        {| contract_name := CONTRACT_TOKEN_NETWORK_REGISTRY;
           contract_address := registry_address;
           listener_required_confirmations := required_confirmations;
           listener_poll_interval := poll_interval;
           listener_sync_start_block := sync_start_block;
           running := false |} in
      (Returned
         (mkMS web3 private_key state_db address monitor_contract_address
               registry_address sync_start_block required_confirmations
               poll_interval ∅ ∅ [] []
               (Some token_network_registry_listener)),
       state_db, transport).

End Constructor.

(** ** Delivery of confirmed events and completion of tasks *)
Section Delivery.
Context `{Libs}.

(** A token network listener calls its confirmed-event callback,
    [on_channel_event], on each event in turn; an exception ends the run. *)
Fixpoint on_channel_events (evs : list (Event * Tx)) : M unit :=
  match evs with
  | [] => mret tt
  | (ev, tx) :: evs => on_channel_event ev tx;; on_channel_events evs
  end.

(** The tasks a call started: the suffix it appended to [task_list]. *)
Definition started (before after : MonitoringService) : list Task :=
  drop (length (task_list before)) (task_list after).

(** The three steps of validation that do not depend on the channel
    (structure, signatures, jurisdiction) are cryptographic; the store is
    parametric in their verdict. *)
Variable valid_request : MonitorRequest → bool.

(** Modelled from the spec: the write of the [StoreMonitorRequest] task
    ([monitoring_service/tasks.py] is not among the sources).  "On success the
    request is upserted", and "only a strictly higher nonce supersedes an
    existing stored request for the same key"; the key is the channel
    identifier, as [server.py] indexes [state_db.monitor_requests]. *)
Definition upsert_monitor_request (req : MonitorRequest)
    (db : StateDBSqlite) : StateDBSqlite :=
  let key := channel_identifier (balance_proof req) in
  let write :=
    {| metadata := metadata db;
       monitor_requests := <[key := req]> (monitor_requests db) |} in
  match monitor_requests db !! key with
  | None => write
  | Some stored =>
      if nonce (balance_proof stored) <? nonce (balance_proof req)
      then write else db
  end.

(** Modelled from the spec: what running a started task does to the state
    database.  Only [StoreMonitorRequest] writes requests; the two on-chain
    tasks submit transactions. *)
Definition run_task (task : Task) (db : StateDBSqlite) : StateDBSqlite :=
  match task with
  | StoreMonitorRequest _ req =>
      if valid_request req then upsert_monitor_request req db else db
  | OnChannelClose _ _ _ | OnChannelSettle _ _ _ => db
  end.

(** Intake of a request: the transport callback [on_monitor_request], then
    the tasks it started run to completion on the shared database. *)
Definition intake (req : MonitorRequest) (ms : MonitoringService) : MonitoringService :=
  let ms' := (on_monitor_request req ms).2 in
  foldl (λ s task, set_state_db (run_task task) s) ms' (started ms ms').

End Delivery.

(** The same event as reported at another block. *)
Definition at_block (b : Z) (ev : Event) : Event :=
  {| event := event ev; address := address ev; blockNumber := b; args := args ev |}.

(** One listener per known token network: the listeners' addresses are
    pairwise distinct and are exactly the known set. *)
Definition listeners_consistent (ms : MonitoringService) : Prop :=
  NoDup (contract_address <$> token_network_listeners ms) ∧
  ∀ a : Address,
    a ∈ token_networks ms ↔ a ∈ contract_address <$> token_network_listeners ms.

(** ** The scenario of the specification: channel 3 between two participants *)
Module Scenario.

Definition hex_address (a : Address) : bool :=
  bool_decide (String.length a = 42%nat).

Definition libs : Libs :=
  {| is_checksum_address := hex_address;
     is_address := hex_address;
     is_same_address := λ a b, bool_decide (a = b);
     is_channel_identifier := λ n, bool_decide (0 ≤ n < 2 ^ 256);
     private_key_to_address := λ _, "0x5555555555555555555555555555555555555555";
     encode_hex := λ s, "0x" +:+ s;
     BalanceProof_init := λ id tn bh n ah cid sig,
       if hex_address tn
       then Returned (mkBalanceProof id tn bh n ah cid sig)
       else Raised (ValueError "token_network_address");
     is_service_registered := λ _ _ _, true |}.

Definition TN : Address := "0x1111111111111111111111111111111111111111".
Definition TOKEN : Address := "0x2222222222222222222222222222222222222222".
Definition P1 : Address := "0x3333333333333333333333333333333333333333".
Definition P2 : Address := "0x4444444444444444444444444444444444444444".
Definition MS_ADDRESS : Address := "0x5555555555555555555555555555555555555555".
Definition MSC : Address := "0x6666666666666666666666666666666666666666".
Definition REGISTRY : Address := "0x7777777777777777777777777777777777777777".

Definition node : Web3 := {| version_network := 1 |}.

(** [MonitorRequest(channel=id, nonce=n, non_closer=P2, reward=5)]. *)
Definition request (id n : Z) : MonitorRequest :=
  {| balance_proof :=
       {| channel_identifier := id; token_network_address := TN;
          balance_hash := "balance"; nonce := n; additional_hash := "";
          chain_id := 1; signature := "signed by P1" |};
     non_closing_signature := "signed by P2";
     reward_amount := 5;
     monitor_address := MSC;
     reward_proof_signature := "reward signed by P2" |}.

Definition database (requests : gmap Z MonitorRequest) : StateDBSqlite :=
  {| metadata := Some (mkMetadata 1 MSC MS_ADDRESS);
     monitor_requests := requests |}.

(** The service as [__init__] returns it on [database requests]. *)
Definition service (requests : gmap Z MonitorRequest) : MonitoringService :=
  mkMS node "key" (database requests) MS_ADDRESS MSC REGISTRY 0 8 10 ∅ ∅ [] []
       (Some (mkListener CONTRACT_TOKEN_NETWORK_REGISTRY REGISTRY 8 10 0 false)).

Definition channel_event (name : string) (id block : Z) : Event :=
  {| event := name; address := TN; blockNumber := block;
     args := {| args_channel_identifier := id; args_closing_participant := P1;
                args_token_network_address := TN; args_token_address := TOKEN |} |}.

Definition token_network_created (block : Z) : Event :=
  channel_event "TokenNetworkCreated" 0 block.

Definition call (fn : string) (id n : Z) : Tx :=
  {| tx_function := fn;
     tx_data := {| tx_channel_identifier := id; tx_balance_hash := "balance";
                   tx_nonce := n; tx_additional_hash := "";
                   tx_signature := "signed by P2" |} |}.

Definition opened_3 : Event * Tx :=
  (channel_event ChannelEvent.OPENED 3 2, call "openChannel" 3 0).
Definition closed_3 : Event * Tx :=
  (channel_event ChannelEvent.CLOSED 3 10, call "closeChannel" 3 0).
Definition settled_3 : Event * Tx :=
  (channel_event ChannelEvent.SETTLED 3 30, call "settleChannel" 3 0).
Definition closed_999 : Event * Tx :=
  (channel_event ChannelEvent.CLOSED 999 10, call "closeChannel" 999 0).
Definition assisted_3 : Event * Tx :=
  (channel_event "MonitoringAssistedByMS" 3 27, call "monitor" 3 1).

(** The service after the listener delivered the given events. *)
Definition after (evs : list (Event * Tx)) (ms : MonitoringService) : MonitoringService :=
  (on_channel_events (H:=libs) evs ms).2.

End Scenario.

(** [order_participants], [server.py:35-36]: Python compares strings by
    code points, first difference first. *)
Definition order_participants (p1 p2 : Address) : Address * Address :=
  if String.ltb p1 p2 then (p1, p2) else (p2, p1).

(** ** The service of the crash test

    [test_crash.py] drives [monitoring_service.service.MonitoringService]
    through [new_ms], [_process_new_blocks], [context.ms_state], [database]
    and the recorded [monitor] calls.  That class and its database are not
    among the sources; they are modelled from the specification (data model,
    reducer, scheduler, main loop).  The loop of the test itself is embedded
    from its source. *)
Module CrashModel.

Inductive ChannelState := Opened | Closed | Settled.

(** Modelled from the spec: a [Channel] row with the attributes the
    reducer reads and writes ([monitoring_service.states] is missing). *)
Record Channel := mkChannel {
  participant1 : Address;
  participant2 : Address;
  settle_timeout : Z;
  state : ChannelState;
  closing_block : option Z;
  closing_participant : option Address;
  update_nonce : Z;
  assisted_by : option Address;
}.

(** Modelled from the spec: a stored [MonitorRequest], keyed by
    [(token_network, channel_id, non_closing_participant)]; the signer of
    the closing-party signature stands for the signature, whose recovery is
    cryptographic. *)
Record MonitorRequest := mkMonitorRequest {
  token_network : Address;
  channel_id : Z;
  non_closing_participant : Address;
  nonce : Z;
  balance_hash : string;
  additional_hash : string;
  closing_signer : Address;
  reward_amount : Z;
}.

Inductive ActionKind := ActionMonitoringTriggered | ActionClaimRewardTriggered.

(** Modelled from the spec: a [ScheduledAction]; its identity is
    [(kind, channel_key, trigger_block)]. *)
Record ScheduledAction := mkAction {
  trigger_block : Z;
  kind : ActionKind;
  channel_key : Address * Z;
  payload : Address;
  in_flight : bool;
}.

(** Modelled from the spec: the singleton [BlockchainState] row. *)
Record BlockchainState := mkBlockchainState {
  latest_confirmed_block : Z;
  chain_id : Z;
  token_network_registry_address : Address;
  monitor_contract_address : Address;
  monitoring_service_address : Address;
  token_network_addresses : list Address;
}.

(** Modelled from the spec: the typed events of the decoder, and the
    synthetic [TickAdvanced] (the test's [UpdatedHeadBlockEvent]). *)
Inductive Event :=
| TokenNetworkCreated (token_network_address : Address) (block : Z)
| ChannelOpened (tn : Address) (id : Z) (p1 p2 : Address) (settle_timeout block : Z)
| ChannelClosed (tn : Address) (id : Z) (closing : Address) (nonce block : Z)
| NonClosingBalanceProofUpdated (tn : Address) (id : Z) (closing : Address)
                                (nonce block : Z)
| ChannelSettled (tn : Address) (id : Z) (block : Z)
| MonitoringAssistedByMS (tn : Address) (id : Z) (non_closing ms_address : Address)
                         (block : Z)
| TickAdvanced (block : Z).

(** Modelled from the spec: the contract calls handed to the chain writer. *)
Inductive Intent :=
| monitor (request : MonitorRequest)
| claimReward (key : Address * Z) (closing non_closing : Address).

(** Modelled from the spec: the configuration options the reducer uses;
    [monitor_fraction] is a fraction in (0, 1), 8/10 by default. *)
Record Config := mkConfig {
  monitor_fraction_num : Z;
  monitor_fraction_den : Z;
  claim_delay_blocks : Z;
}.

Definition default_config : Config :=
  {| monitor_fraction_num := 8; monitor_fraction_den := 10; claim_delay_blocks := 15 |}.

(** Modelled from the spec: the materialized state, as an instance holds it
    in memory. *)
Record MonitoringServiceState := mkState {
  blockchain_state : BlockchainState;
  channels : gmap (Address * Z) Channel;
  monitor_requests : gmap (Address * Z * Address) MonitorRequest;
  scheduled_actions : list ScheduledAction;
}.

(** Modelled from the spec: the database, an append-only journal and the
    materialized tables as rows. *)
Record Database := mkDatabase {
  journal : list Event;
  blockchain_state_row : BlockchainState;
  channel_rows : list (Address * Z * Channel);
  monitor_request_rows : list (Address * Z * Address * MonitorRequest);
  scheduled_action_rows : list ScheduledAction;
}.

Inductive ErrorKind := StateInvariantViolation.

Definition set_blockchain_state (f : BlockchainState → BlockchainState)
    (st : MonitoringServiceState) : MonitoringServiceState :=
  mkState (f (blockchain_state st)) (channels st) (monitor_requests st)
          (scheduled_actions st).

Definition set_channels
    (f : gmap (Address * Z) Channel → gmap (Address * Z) Channel)
    (st : MonitoringServiceState) : MonitoringServiceState :=
  mkState (blockchain_state st) (f (channels st)) (monitor_requests st)
          (scheduled_actions st).

Definition set_scheduled_actions
    (f : list ScheduledAction → list ScheduledAction)
    (st : MonitoringServiceState) : MonitoringServiceState :=
  mkState (blockchain_state st) (channels st) (monitor_requests st)
          (f (scheduled_actions st)).

Definition set_channel (ch : Channel) (s : ChannelState) (cb : option Z)
    (cp : option Address) (n : Z) (by_ms : option Address) : Channel :=
  mkChannel (participant1 ch) (participant2 ch) (settle_timeout ch) s cb cp n by_ms.

Definition other_participant (ch : Channel) (p : Address) : Address :=
  if bool_decide (p = participant1 ch) then participant2 ch else participant1 ch.

Definition is_monitoring (k : ActionKind) : bool :=
  match k with ActionMonitoringTriggered => true | ActionClaimRewardTriggered => false end.

Definition same_kind (k1 k2 : ActionKind) : bool :=
  bool_decide (is_monitoring k1 = is_monitoring k2).

(** Modelled from the spec: the queue is ordered by [trigger_block], ties
    by insertion, and two actions with the same [(kind, channel_key)] do
    not coexist. *)
Fixpoint insert_action (a : ScheduledAction) (l : list ScheduledAction)
    : list ScheduledAction :=
  match l with
  | [] => [a]
  | x :: rest =>
      if trigger_block a <? trigger_block x then a :: x :: rest
      else x :: insert_action a rest
  end.

Definition schedule (a : ScheduledAction) (l : list ScheduledAction)
    : list ScheduledAction :=
  if existsb (λ x, same_kind (kind x) (kind a) &&
                   bool_decide (channel_key x = channel_key a)) l
  then l else insert_action a l.

(** Modelled from the spec: pending monitor actions of a channel are
    cancelled ([flying = false]); on completion the in-flight row is deleted
    ([flying = true]). *)
Definition remove_monitoring (flying : bool) (key : Address * Z)
    (l : list ScheduledAction) : list ScheduledAction :=
  List.filter (λ x, negb (is_monitoring (kind x) &&
                          bool_decide (channel_key x = key) &&
                          bool_decide (in_flight x = flying))) l.

Section Engine.
Variable cfg : Config.

(** Modelled from the spec: the reducer of the state engine, one case per
    handler of the specification. *)
Definition reduce (st : MonitoringServiceState) (ev : Event)
    : ErrorKind + MonitoringServiceState :=
  match ev with
  | TokenNetworkCreated a _ =>
      inr (if bool_decide (a ∈ token_network_addresses (blockchain_state st))
           then st
           else set_blockchain_state
                  (λ b, mkBlockchainState
                          (latest_confirmed_block b) (chain_id b)
                          (token_network_registry_address b)
                          (monitor_contract_address b)
                          (monitoring_service_address b)
                          (token_network_addresses b ++ [a])) st)
  | ChannelOpened tn id p1 p2 timeout _ =>
      let '(q1, q2) := order_participants p1 p2 in
      inr (set_channels
             <[(tn, id) := mkChannel q1 q2 timeout Opened None None 0 None]> st)
  | ChannelClosed tn id closing _ b =>
      match channels st !! (tn, id) with
      | None => inl StateInvariantViolation
      | Some ch =>
          let ch' := set_channel ch Closed (Some b) (Some closing)
                                 (update_nonce ch) (assisted_by ch) in
          let st' := set_channels <[(tn, id) := ch']> st in
          let non_closing := other_participant ch closing in
          match monitor_requests st !! (tn, id, non_closing) with
          | Some mr =>
              if bool_decide (closing_signer mr = closing) &&
                 (update_nonce ch <? nonce mr)
              then inr (set_scheduled_actions
                          (schedule
                             (mkAction
                                (b + settle_timeout ch * monitor_fraction_num cfg
                                       / monitor_fraction_den cfg)
                                ActionMonitoringTriggered (tn, id) non_closing false))
                          st')
              else inr st'
          | None => inr st'
          end
      end
  | NonClosingBalanceProofUpdated tn id closing n _ =>
      match channels st !! (tn, id) with
      | None => inr st
      | Some ch =>
          let ch' := set_channel ch (state ch) (closing_block ch)
                                 (closing_participant ch) n (assisted_by ch) in
          let st' := set_channels <[(tn, id) := ch']> st in
          match monitor_requests st !! (tn, id, other_participant ch closing) with
          | Some mr =>
              if nonce mr <=? n
              then inr (set_scheduled_actions (remove_monitoring false (tn, id)) st')
              else inr st'
          | None => inr st'
          end
      end
  | ChannelSettled tn id b =>
      match channels st !! (tn, id) with
      | None => inr st
      | Some ch =>
          let ch' := set_channel ch Settled (closing_block ch)
                                 (closing_participant ch) (update_nonce ch)
                                 (assisted_by ch) in
          let st' := set_scheduled_actions (remove_monitoring false (tn, id))
                       (set_channels <[(tn, id) := ch']> st) in
          if bool_decide (assisted_by ch =
                          Some (monitoring_service_address (blockchain_state st)))
          then inr (set_scheduled_actions
                      (schedule
                         (mkAction (b + claim_delay_blocks cfg)
                            ActionClaimRewardTriggered (tn, id)
                            (other_participant ch
                               (default (participant1 ch) (closing_participant ch)))
                            false))
                      st')
          else inr st'
      end
  | MonitoringAssistedByMS tn id _ ms_address _ =>
      match channels st !! (tn, id) with
      | None => inr st
      | Some ch =>
          let ch' := set_channel ch (state ch) (closing_block ch)
                                 (closing_participant ch) (update_nonce ch)
                                 (Some ms_address) in
          let st' := set_channels <[(tn, id) := ch']> st in
          if bool_decide (ms_address =
                          monitoring_service_address (blockchain_state st))
          then inr (set_scheduled_actions (remove_monitoring true (tn, id)) st')
          else inr st'
      end
  | TickAdvanced _ => inr st
  end.

(** Modelled from the spec: the precondition of a due action, re-checked
    at fire time; [None] discards the action. *)
Definition precondition (st : MonitoringServiceState) (a : ScheduledAction)
    : option Intent :=
  ch ← channels st !! channel_key a;
  match kind a with
  | ActionMonitoringTriggered =>
      mr ← monitor_requests st !! (channel_key a, payload a);
      match state ch with
      | Closed => if update_nonce ch <? nonce mr then Some (monitor mr) else None
      | _ => None
      end
  | ActionClaimRewardTriggered =>
      closing ← closing_participant ch;
      match state ch with
      | Settled => Some (claimReward (channel_key a) closing (payload a))
      | _ => None
      end
  end.

(** Modelled from the spec: the scheduler pops every entry that is not in
    flight with [trigger_block ≤ head]; a surviving one is marked in flight
    and handed to the chain writer, the others are discarded. *)
Fixpoint drain (st : MonitoringServiceState) (head : Z)
    (l : list ScheduledAction) : list ScheduledAction * list Intent :=
  match l with
  | [] => ([], [])
  | a :: rest =>
      let '(kept, intents) := drain st head rest in
      if in_flight a || (head <? trigger_block a) then (a :: kept, intents)
      else match precondition st a with
           | Some i =>
               (mkAction (trigger_block a) (kind a) (channel_key a) (payload a) true
                  :: kept, i :: intents)
           | None => (kept, intents)
           end
  end.

(** Modelled from the spec: [load] and [commit] of the database. *)
Definition load (db : Database) : MonitoringServiceState :=
  {| blockchain_state := blockchain_state_row db;
     channels := list_to_map (channel_rows db);
     monitor_requests := list_to_map (monitor_request_rows db);
     scheduled_actions := scheduled_action_rows db |}.

Definition commit (db : Database) (stream : list Event)
    (st : MonitoringServiceState) : Database :=
  {| journal := journal db ++ stream;
     blockchain_state_row := blockchain_state st;
     channel_rows := map_to_list (channels st);
     monitor_request_rows := map_to_list (monitor_requests st);
     scheduled_action_rows := scheduled_actions st |}.

(** Modelled from the spec: one event of the stream fed to the engine.  The
    reducer runs; at [TickAdvanced b], which mutates no state, the scheduler
    evaluates [trigger_block ≤ b] and hands the surviving actions to the
    chain writer. *)
Definition handle_event (st : MonitoringServiceState) (ev : Event)
    : ErrorKind + MonitoringServiceState * list Intent :=
  match reduce st ev with
  | inl e => inl e
  | inr st1 =>
      match ev with
      | TickAdvanced b =>
          let '(kept, intents) := drain st1 b (scheduled_actions st1) in
          inr (set_scheduled_actions (λ _, kept) st1, intents)
      | _ => inr (st1, [])
      end
  end.

(** Modelled from the spec: the fold over the stream of a tick; the first
    violation aborts it. *)
Fixpoint handle_events (st : MonitoringServiceState) (evs : list Event)
    : ErrorKind + MonitoringServiceState * list Intent :=
  match evs with
  | [] => inr (st, [])
  | ev :: evs =>
      match handle_event st ev with
      | inl e => inl e
      | inr (st1, intents1) =>
          match handle_events st1 evs with
          | inl e => inl e
          | inr (st2, intents2) => inr (st2, intents1 ++ intents2)
          end
      end
  end.

(** The chain of the test, [mockchain(events)], [test_crash.py:57-78]: one
    list of decoded events per block.  It stands for the reader and the
    decoder, steps 1 and 2 of the main loop: the head updates (the test's
    [UpdatedHeadBlockEvent], the spec's [TickAdvanced]) are events of the
    chain, at the blocks the chain gives them, so the event sequence is one
    and the same however it is cut into ticks. *)
Variable events : list (list Event).

Definition block_events (b : Z) : list Event :=
  if b <? 0 then [] else default [] (events !! Z.to_nat b).

(** Modelled from the spec: the reader, [poll(from_block, to_block)], gives
    the events of the blocks of the range in order; a range that ends before
    it starts is empty. *)
Definition poll (from_block to_block : Z) : list Event :=
  concat (block_events <$> seqZ from_block (to_block + 1 - from_block)).

(** Modelled from the spec: the commit advances the confirmed head-block
    pointer, which never decreases. *)
Definition advance_head (to_block : Z) (st : MonitoringServiceState)
    : MonitoringServiceState :=
  set_blockchain_state
    (λ b, mkBlockchainState (Z.max (latest_confirmed_block b) to_block) (chain_id b)
            (token_network_registry_address b) (monitor_contract_address b)
            (monitoring_service_address b) (token_network_addresses b)) st.

(** Modelled from the spec: one tick of the main loop as one transaction on
    the database.  The snapshot is loaded; the events of the blocks after
    the last processed one are folded from it; the head pointer advances;
    the tick commits, and the calls go to the chain writer after the commit.
    A violation aborts the tick ([None]): nothing is persisted. *)
Definition tick (db : Database) (to_block : Z)
    : option (MonitoringServiceState * Database * list Intent) :=
  let st := load db in
  let stream := poll (latest_confirmed_block (blockchain_state st) + 1) to_block in
  match handle_events st stream with
  | inl _ => None
  | inr (st1, intents) =>
      let st2 := advance_head to_block st1 in
      Some (st2, commit db stream st2, intents)
  end.

(** Modelled from the spec: an instance of the missing
    [monitoring_service.service.MonitoringService], by what the test reads of
    it: the blockchain state it holds in memory
    ([context.ms_state.blockchain_state]), the database it is opened on, and
    the calls its chain writer made (the mock).  Channels, requests and
    actions live in the database only. *)
Record MonitoringService := mkService {
  context_blockchain_state : BlockchainState;
  database : Database;
  mock_calls : list Intent;
}.

(** [new_ms(filename)], [test_crash.py:88-99].  Modelled from the spec: an
    instance opened on a database starts from [load()], "the exact
    materialized state corresponding to the last committed tick". *)
Definition new_ms (db : Database) : MonitoringService :=
  {| context_blockchain_state := blockchain_state (load db);
     database := db; mock_calls := [] |}.


(** [_process_new_blocks(to_block)]: the tick on the instance's database; a
    committed tick refreshes the blockchain state in memory and records the
    calls, an aborted one leaves the instance as it was. *)
Definition _process_new_blocks (ms : MonitoringService) (to_block : Z)
    : MonitoringService :=
  match tick (database ms) to_block with
  | None => ms
  | Some (st, db, intents) =>
      {| context_blockchain_state := blockchain_state st;
         database := db;
         mock_calls := mock_calls ms ++ intents |}
  end.




(** Modelled from the spec: [database.upsert_monitor_request]; only a
    strictly higher nonce supersedes the request stored under the key. *)
Definition upsert_monitor_request (mr : MonitorRequest) (db : Database) : Database :=
  let key := (token_network mr, channel_id mr, non_closing_participant mr) in
  let stored : gmap (Address * Z * Address) MonitorRequest :=
    list_to_map (monitor_request_rows db) in
  let write :=
    mkDatabase (journal db) (blockchain_state_row db) (channel_rows db)
               (map_to_list (<[key := mr]> stored)) (scheduled_action_rows db) in
  match stored !! key with
  | None => write
  | Some old => if nonce old <? nonce mr then write else db
  end.

(** [INSERT INTO token_network(address) VALUES (?)], [test_crash.py:105-107]. *)
Definition insert_token_network (a : Address) (db : Database) : Database :=
  let b := blockchain_state_row db in
  mkDatabase (journal db)
             (mkBlockchainState (latest_confirmed_block b) (chain_id b)
                (token_network_registry_address b) (monitor_contract_address b)
                (monitoring_service_address b) (token_network_addresses b ++ [a]))
             (channel_rows db) (monitor_request_rows db) (scheduled_action_rows db).

(** The set-up of an instance, [test_crash.py:104-110]: the instance exists
    already; the token network is inserted into its database and set in the
    blockchain state it holds in memory, the request is upserted. *)
Definition set_up (token_network_address : Address) (monitor_request : MonitorRequest)
    (ms : MonitoringService) : MonitoringService :=
  let db := insert_token_network token_network_address (database ms) in
  let b := context_blockchain_state ms in
  let b := mkBlockchainState (latest_confirmed_block b) (chain_id b)
             (token_network_registry_address b) (monitor_contract_address b)
             (monitoring_service_address b) [token_network_address] in
  let db := upsert_monitor_request monitor_request db in
  {| context_blockchain_state := b; database := db; mock_calls := mock_calls ms |}.






End Engine.

End CrashModel.

(** ** The happy-monitor scenario on the modelled service *)
Module CrashScenario.
Import CrashModel.

Definition TN : Address := Scenario.TN.
Definition C1 : Address := Scenario.P1.
Definition C2 : Address := Scenario.P2.

(** A chain of 31 blocks; each block ends with the [TickAdvanced] of its
    number; [ChannelOpened(id=3)] is in block 2 and
    [ChannelClosed(id=3, closing=C1)] in block 10. *)
Definition events : list (list Event) :=
  (λ b : Z,
     (if bool_decide (b = 2) then [ChannelOpened TN 3 C1 C2 20 2]
      else if bool_decide (b = 10) then [ChannelClosed TN 3 C1 0 10]
      else []) ++ [TickAdvanced b]) <$> seqZ 0 31.

Definition request : MonitorRequest :=
  {| token_network := TN; channel_id := 3; non_closing_participant := C2;
     nonce := 1; balance_hash := "balance"; additional_hash := "";
     closing_signer := C1; reward_amount := 5 |}.

(** A database as it is created: nothing processed, nothing stored. *)
Definition new_db : Database :=
  {| journal := [];
     blockchain_state_row :=
       mkBlockchainState (-1) 1 Scenario.REGISTRY Scenario.MSC Scenario.MS_ADDRESS [];
     channel_rows := [];
     monitor_request_rows := [];
     scheduled_action_rows := [] |}.

(** The database after the set-up of the test. *)
Definition db : Database := database (set_up TN request (new_ms new_db)).

Definition run (to_blocks : list Z) : MonitoringService :=
  foldl (_process_new_blocks default_config events) (new_ms db) to_blocks.

End CrashScenario.

(** ** Delivery of registry events and of transport messages *)
Section MoreDelivery.
Context `{Libs}.

(** The registry listener calls its confirmed-event callback,
    [handle_token_network_created] ([_setup_token_networks],
    [server.py:132-136]), on each event in turn; an exception ends the run. *)
Fixpoint handle_token_networks_created (evs : list Event) : M unit :=
  match evs with
  | [] => mret tt
  | ev :: evs => handle_token_network_created ev;; handle_token_networks_created evs
  end.

(** The transport calls the message callback registered at [server.py:75],
    [on_message_event], on each message in turn. *)
Fixpoint on_message_events (messages : list Message) : M unit :=
  match messages with
  | [] => mret tt
  | message :: messages => on_message_event message;; on_message_events messages
  end.

(** The two assertions of [handle_token_network_created] on an event,
    [server.py:143-144]. *)
Definition created_assertions (ev : Event) : bool :=
  is_checksum_address (args_token_network_address (args ev)) &&
  is_checksum_address (args_token_address (args ev)).

(** The two assertions of [on_channel_close] on an event,
    [server.py:223-224]. *)
Definition close_assertions (ev : Event) : bool :=
  is_address (args_closing_participant (args ev)) &&
  is_channel_identifier (args_channel_identifier (args ev)).

(** A close event the handler gets past: the balance proof of its
    transaction is constructed and the two assertions hold. *)
Definition close_well_formed (web3 : Web3) (ev : Event) (tx : Tx) : bool :=
  match close_balance_proof web3 ev tx with
  | Returned _ => close_assertions ev
  | Raised _ => false
  end.

End MoreDelivery.

(** The reward-claim tasks among started tasks. *)
Definition is_claim (task : Task) : bool :=
  match task with
  | OnChannelSettle _ _ _ => true
  | OnChannelClose _ _ _ | StoreMonitorRequest _ _ => false
  end.

(** A message that is a monitor request for a channel of the given set. *)
Definition request_for (open : gset Z) (message : Message) : option MonitorRequest :=
  match message with
  | MonitorRequestMessage req =>
      if decide (channel_identifier (balance_proof req) ∈ open) then Some req else None
  | OtherMessage => None
  end.

(** What a run of channel events may change of a service: it appends tasks
    that monitor or claim for requests that were stored, with the service's
    own contract and key; it deletes one stored request per claim; it keeps
    everything but the open channels, the task list and the stored
    requests. *)
Definition channel_events_change (ms ms' : MonitoringService) : Prop :=
  ms_web3 ms' = ms_web3 ms ∧
  ms_private_key ms' = ms_private_key ms ∧
  ms_address ms' = ms_address ms ∧
  monitor_contract ms' = monitor_contract ms ∧
  token_networks ms' = token_networks ms ∧
  token_network_listeners ms' = token_network_listeners ms ∧
  metadata (state_db ms') = metadata (state_db ms) ∧
  monitor_requests (state_db ms') ⊆ monitor_requests (state_db ms) ∧
  ∃ new : list Task,
    task_list ms' = task_list ms ++ new ∧
    Forall (λ task, ∃ id mr,
              monitor_requests (state_db ms) !! id = Some mr ∧
              (task = OnChannelClose (monitor_contract ms) mr (ms_private_key ms) ∨
               task = OnChannelSettle mr (monitor_contract ms) (ms_private_key ms)))
           new ∧
    (length (List.filter is_claim new) + size (monitor_requests (state_db ms')))%nat =
      size (monitor_requests (state_db ms)).

(** What a run of registry events may change of a service: the known set
    grows, and listeners are appended, each one started, for an address that
    was not known, with the service's own settings; the rest is kept. *)
Definition registry_events_change (ms ms' : MonitoringService) : Prop :=
  required_confirmations ms' = required_confirmations ms ∧
  poll_interval ms' = poll_interval ms ∧
  open_channels ms' = open_channels ms ∧
  task_list ms' = task_list ms ∧
  state_db ms' = state_db ms ∧
  token_networks ms ⊆ token_networks ms' ∧
  ∃ new : list BlockchainListener,
    token_network_listeners ms' = token_network_listeners ms ++ new ∧
    Forall (λ l, (contract_address l ∉ token_networks ms) ∧
                 contract_name l = CONTRACT_TOKEN_NETWORK ∧
                 listener_required_confirmations l = required_confirmations ms ∧
                 listener_poll_interval l = poll_interval ms ∧
                 running l = true) new.

(** * Properties of the handlers *)

Ltac run_handler :=
  unfold handle_token_network_created, on_channel_event, on_channel_open,
    on_channel_close, on_channel_settled, on_monitor_request, start_task,
    assert, gets, modify, raise, call_outcome;
  unfold mbind, M_bind, mret, M_ret; simpl.

Section ServerProperties.
Context `{Libs}.

Lemma started_append (ms ms' : MonitoringService) (new : list Task) :
  task_list ms' = task_list ms ++ new → started ms ms' = new.
Proof. intros E. unfold started. rewrite E. apply drop_app_length. Qed.

Lemma started_same (ms : MonitoringService) : started ms ms = [].
Proof. unfold started. apply drop_all. Qed.

(** What [handle_token_network_created] does to the object, as one equation. *)
Lemma handle_token_network_created_state (ev : Event) (ms : MonitoringService) :
  let a := args_token_network_address (args ev) in
  (handle_token_network_created ev ms).2 =
    if is_checksum_address a && is_checksum_address (args_token_address (args ev))
         && bool_decide (a ∉ token_networks ms)
    then set_token_network_listeners
           (λ l, l ++ [mkListener CONTRACT_TOKEN_NETWORK a (required_confirmations ms)
                                  (poll_interval ms) (blockNumber ev) true])
           (set_token_networks (λ s, s ∪ {[a]}) ms)
    else ms.
Proof.
  run_handler.
  destruct (is_checksum_address (args_token_network_address (args ev))); simpl; [|done].
  destruct (is_checksum_address (args_token_address (args ev))); simpl; [|done].
  destruct (decide _) as [Hn|Hn].
  - rewrite bool_decide_eq_true_2 by done. done.
  - rewrite bool_decide_eq_false_2 by done. done.
Qed.

(** C8. Handling [TokenNetworkCreated] is idempotent on replay: on a service
    with one listener per known network, the handler keeps that property,
    handling the same event a second time changes nothing, and an event for
    an address already in the known set leaves the whole object (known set
    and listener list included) as it was. *)
Theorem handle_token_network_created_idempotent (ev : Event) (ms : MonitoringService) :
  listeners_consistent ms →
  let ms1 := (handle_token_network_created ev ms).2 in
  listeners_consistent ms1 ∧
  (handle_token_network_created ev ms1).2 = ms1 ∧
  (args_token_network_address (args ev) ∈ token_networks ms → ms1 = ms).
Proof.
  intros [Hnd Hset]. cbv zeta.
  pose proof (handle_token_network_created_state ev ms) as E1. cbv zeta in E1.
  set (a := args_token_network_address (args ev)) in *.
  split; [|split].
  - rewrite E1. destruct (_ && _ && _) eqn:Hc; [|by split].
    apply andb_true_iff in Hc as [_ Hnew%bool_decide_eq_true].
    split; simpl.
    + rewrite fmap_app. simpl. apply NoDup_app. split; [done|]. split.
      * intros x Hx Hx'%list_elem_of_singleton. subst x. apply Hnew, Hset, Hx.
      * apply NoDup_singleton.
    + intros b. rewrite fmap_app, elem_of_app, elem_of_union, Hset. simpl.
      rewrite elem_of_singleton, list_elem_of_singleton. done.
  - pose proof (handle_token_network_created_state ev
                  (handle_token_network_created ev ms).2) as E2.
    cbv zeta in E2. fold a in E2. rewrite E2. rewrite E1.
    destruct (is_checksum_address a && is_checksum_address (args_token_address (args ev)))
      eqn:Hc; simpl; [|done].
    destruct (bool_decide (a ∉ token_networks ms)) eqn:Hn; simpl.
    + rewrite bool_decide_eq_false_2; [done|]. intros Hne. apply Hne.
      apply elem_of_union. right. by apply elem_of_singleton.
    + rewrite Hn. done.
  - intros Hin. rewrite E1. rewrite (bool_decide_eq_false_2 (a ∉ _)) by (intros Hn; done).
    by rewrite andb_false_r.
Qed.

(** The close handler as one equation: the constructor of the balance proof
    first, then the two assertions, then the stored request. *)
Lemma on_channel_close_run (ev : Event) (tx : Tx) (ms : MonitoringService) :
  on_channel_close ev tx ms =
    match close_balance_proof (ms_web3 ms) ev tx with
    | Raised e => (Raised e, ms)
    | Returned _ =>
        if close_assertions ev
        then (Returned tt,
              match monitor_requests (state_db ms) !! args_channel_identifier (args ev) with
              | None => ms
              | Some mr =>
                  set_open_channels (λ s, s ∖ {[args_channel_identifier (args ev)]})
                    (set_task_list
                       (λ l, l ++ [OnChannelClose (monitor_contract ms) mr
                                                  (ms_private_key ms)])
                       ms)
              end)
        else (Raised AssertionError, ms)
    end.
Proof.
  unfold close_assertions. run_handler.
  destruct (close_balance_proof _ _ _); simpl; [|done].
  destruct (is_address _); simpl; [|done].
  destruct (is_channel_identifier _); simpl; [|done].
  by destruct (_ !! _).
Qed.

Lemma on_channel_close_well_formed (ev : Event) (tx : Tx) (ms : MonitoringService) :
  close_well_formed (ms_web3 ms) ev tx = true →
  on_channel_close ev tx ms =
    (Returned tt,
     match monitor_requests (state_db ms) !! args_channel_identifier (args ev) with
     | None => ms
     | Some mr =>
         set_open_channels (λ s, s ∖ {[args_channel_identifier (args ev)]})
           (set_task_list
              (λ l, l ++ [OnChannelClose (monitor_contract ms) mr (ms_private_key ms)])
              ms)
     end).
Proof.
  unfold close_well_formed. intros Hwf. rewrite on_channel_close_run.
  destruct (close_balance_proof _ _ _); [|discriminate]. by rewrite Hwf.
Qed.

Lemma on_channel_close_malformed (ev : Event) (tx : Tx) (ms : MonitoringService) :
  close_well_formed (ms_web3 ms) ev tx = false →
  ∃ e, on_channel_close ev tx ms = (Raised e, ms).
Proof.
  unfold close_well_formed. intros Hwf. rewrite on_channel_close_run.
  destruct (close_balance_proof _ _ _); [|by eexists]. rewrite Hwf. by eexists.
Qed.

(** C9. When [ChannelClosed] arrives for a channel with no stored request, the
    close handler leaves the whole object unchanged, whether it returns or
    raises; it returns early, normally, when the balance proof of the
    transaction is constructed and the two assertions on the event hold; the
    channel identifier therefore stays in [open_channels] if it was there,
    and a request for it arriving after the close is handed to a
    [StoreMonitorRequest] task as for an open channel. *)
Theorem on_channel_close_without_request (ev : Event) (tx : Tx) (ms : MonitoringService) :
  let channel_id := args_channel_identifier (args ev) in
  monitor_requests (state_db ms) !! channel_id = None →
  (on_channel_close ev tx ms).2 = ms ∧
  (close_well_formed (ms_web3 ms) ev tx = true →
   on_channel_close ev tx ms = (Returned tt, ms)) ∧
  (channel_id ∈ open_channels ms →
   channel_id ∈ open_channels (on_channel_close ev tx ms).2 ∧
   ∀ req, channel_identifier (balance_proof req) = channel_id →
     on_monitor_request req (on_channel_close ev tx ms).2 =
       (Returned tt,
        set_task_list (λ l, l ++ [StoreMonitorRequest (ms_web3 ms) req]) ms)).
Proof.
  cbv zeta. intros Hnone.
  assert (Hst : (on_channel_close ev tx ms).2 = ms).
  { rewrite on_channel_close_run, Hnone. by repeat case_match. }
  split; [done|]. split.
  - intros Hwf. by rewrite on_channel_close_well_formed, Hnone.
  - intros Hopen. rewrite Hst. split; [done|]. intros req Hid.
    run_handler. rewrite Hid. destruct (decide _) as [Hn|_]; [by destruct Hn|done].
Qed.

(** C10. For a [ChannelSettled] event of a channel with a stored request, one
    invocation of the settle handler starts the reward-claim task and deletes
    the stored request, under no further condition; afterwards no request is
    stored for that channel identifier. *)
Theorem on_channel_settled_deletes_request
    (ev : Event) (tx : Tx) (ms : MonitoringService) (mr : MonitorRequest) :
  let channel_id := args_channel_identifier (args ev) in
  monitor_requests (state_db ms) !! channel_id = Some mr →
  on_channel_settled ev tx ms =
    (Returned tt,
     set_state_db (delete_monitor_request channel_id)
       (set_task_list
          (λ l, l ++ [OnChannelSettle mr (monitor_contract ms) (ms_private_key ms)]) ms)) ∧
  monitor_requests (state_db (on_channel_settled ev tx ms).2) !! channel_id = None.
Proof.
  cbv zeta. intros Hsome.
  assert (E : on_channel_settled ev tx ms =
    (Returned tt,
     set_state_db (delete_monitor_request (args_channel_identifier (args ev)))
       (set_task_list
          (λ l, l ++ [OnChannelSettle mr (monitor_contract ms) (ms_private_key ms)]) ms))).
  { run_handler. by rewrite Hsome. }
  split; [done|]. rewrite E. simpl. apply lookup_delete_eq.
Qed.

(** C2, as the handler has it.  For a [ChannelClosed] event of a channel with
    a stored request, the balance proof of the transaction being constructed
    and the two assertions on the event holding, the handler starts the
    [OnChannelClose] monitor task at once, in the same invocation, and
    removes the channel from [open_channels]; the task it starts and the
    object it leaves are the same whatever block the event is reported at:
    nothing is scheduled for a later block. *)
Theorem on_channel_close_monitors_at_once
    (ev : Event) (tx : Tx) (ms : MonitoringService) (mr : MonitorRequest) :
  let channel_id := args_channel_identifier (args ev) in
  monitor_requests (state_db ms) !! channel_id = Some mr →
  close_well_formed (ms_web3 ms) ev tx = true →
  on_channel_close ev tx ms =
    (Returned tt,
     set_open_channels (λ s, s ∖ {[channel_id]})
       (set_task_list
          (λ l, l ++ [OnChannelClose (monitor_contract ms) mr (ms_private_key ms)]) ms)) ∧
  started ms (on_channel_close ev tx ms).2 =
    [OnChannelClose (monitor_contract ms) mr (ms_private_key ms)] ∧
  ∀ b : Z, on_channel_close (at_block b ev) tx ms = on_channel_close ev tx ms.
Proof.
  cbv zeta. intros Hsome Hwf.
  assert (E : ∀ b, on_channel_close (at_block b ev) tx ms =
    (Returned tt,
     set_open_channels (λ s, s ∖ {[args_channel_identifier (args ev)]})
       (set_task_list
          (λ l, l ++ [OnChannelClose (monitor_contract ms) mr (ms_private_key ms)]) ms))).
  { intros b. rewrite on_channel_close_well_formed by done. simpl. by rewrite Hsome. }
  assert (E0 : on_channel_close ev tx ms = on_channel_close (at_block (blockNumber ev) ev) tx ms).
  { by destruct ev. }
  split; [by rewrite E0, E|]. split.
  - rewrite E0, E. by apply started_append.
  - intros b. by rewrite E0, !E.
Qed.

(** C3, as the handler has it.  For every [ChannelSettled] event the handler
    starts the [OnChannelSettle] reward-claim task, at once, exactly when a
    request is stored for the channel identifier, and starts nothing
    otherwise; a [MonitoringAssistedByMS] event given to [on_channel_event]
    leaves the object as it was, so whether one was observed has no
    influence. *)
Theorem on_channel_settled_claims_iff_request_stored
    (ev : Event) (tx : Tx) (ms : MonitoringService) :
  started ms (on_channel_settled ev tx ms).2 =
    match monitor_requests (state_db ms) !! args_channel_identifier (args ev) with
    | Some mr => [OnChannelSettle mr (monitor_contract ms) (ms_private_key ms)]
    | None => []
    end ∧
  ∀ a b xs tx',
    on_channel_event (mkEvent "MonitoringAssistedByMS" a b xs) tx' ms = (Returned tt, ms).
Proof.
  split.
  - run_handler. destruct (_ !! _); simpl.
    + by apply started_append.
    + apply started_same.
  - intros a b xs tx'. unfold on_channel_event. simpl.
    repeat (destruct (decide _) as [?|_]; [discriminate|]). done.
Qed.

Lemma on_monitor_request_run (req : MonitorRequest) (ms : MonitoringService) :
  on_monitor_request req ms =
    (Returned tt,
     if decide (channel_identifier (balance_proof req) ∈ open_channels ms)
     then set_task_list (λ l, l ++ [StoreMonitorRequest (ms_web3 ms) req]) ms
     else ms).
Proof.
  run_handler.
  destruct (decide (_ ∉ _)) as [Hn|Hn], (decide (_ ∈ _)) as [Hi|Hi]; done.
Qed.

(** C4, as the handler has it.  [on_monitor_request] hands a request to a
    [StoreMonitorRequest] task exactly when its channel identifier is in
    [open_channels]; any other request is dropped: the handler returns
    normally, raises nothing and leaves the object as it was.  No nonce is
    compared, and the handler itself never writes the state database. *)
Theorem on_monitor_request_open_channels_only
    (req : MonitorRequest) (ms : MonitoringService) :
  on_monitor_request req ms =
    (Returned tt,
     if decide (channel_identifier (balance_proof req) ∈ open_channels ms)
     then set_task_list (λ l, l ++ [StoreMonitorRequest (ms_web3 ms) req]) ms
     else ms) ∧
  started ms (on_monitor_request req ms).2 =
    (if decide (channel_identifier (balance_proof req) ∈ open_channels ms)
     then [StoreMonitorRequest (ms_web3 ms) req] else []) ∧
  state_db (on_monitor_request req ms).2 = state_db ms.
Proof.
  rewrite on_monitor_request_run. split; [done|]. simpl.
  destruct (decide _); simpl.
  - split; [by apply started_append|done].
  - split; [apply started_same|done].
Qed.

(** C5.  Intake of a request whose nonce is not strictly greater than the
    nonce of the request stored for its channel leaves the state database as
    it was; whatever the nonce, after intake the stored request is either the
    old one or the incoming one with a strictly greater nonce. *)
Theorem intake_monotone_nonce (valid_request : MonitorRequest → bool)
    (req stored : MonitorRequest) (ms : MonitoringService) :
  let key := channel_identifier (balance_proof req) in
  monitor_requests (state_db ms) !! key = Some stored →
  (nonce (balance_proof req) ≤ nonce (balance_proof stored) →
   state_db (intake valid_request req ms) = state_db ms) ∧
  (monitor_requests (state_db (intake valid_request req ms)) !! key = Some stored ∨
   monitor_requests (state_db (intake valid_request req ms)) !! key = Some req ∧
   nonce (balance_proof stored) < nonce (balance_proof req)).
Proof.
  cbv zeta. intros Hsome. unfold intake.
  rewrite on_monitor_request_run. simpl.
  destruct (decide _) as [Hopen|Hclosed].
  - rewrite (started_append ms _ [StoreMonitorRequest (ms_web3 ms) req]) by done.
    simpl. destruct (valid_request req); [|by split; [|left]].
    unfold upsert_monitor_request. rewrite Hsome.
    destruct (Z.ltb_spec (nonce (balance_proof stored)) (nonce (balance_proof req))).
    + split; [lia|]. right. simpl. by rewrite lookup_insert_eq.
    + split; [done|by left].
  - rewrite started_same. simpl. by split; [|left].
Qed.

(** C6.  When the state database holds metadata and the node's chain id, the
    service's own address or the monitoring contract address disagrees with
    what is recorded there, the constructor raises and returns no service
    object; it leaves the database as it was and does not start the
    transport; the exception is [StateDBInvalid] once the assertion on the
    private key holds. *)
Theorem init_refuses_mismatch (web3 : Web3) (private_key : string)
    (db : StateDBSqlite) (transport : Transport)
    (registry monitor_contract_address : Address)
    (sync_start required_conf poll : Z) (m : Metadata) :
  metadata db = Some m →
  meta_chain_id m ≠ version_network web3 ∨
  is_same_address (meta_server_address m) (private_key_to_address private_key) = false ∨
  is_same_address (meta_monitoring_contract_address m) monitor_contract_address = false →
  ∃ (e : exn) (transport' : Transport),
    __init__ web3 private_key db transport registry monitor_contract_address
             sync_start required_conf poll = (Raised e, db, transport') ∧
    transport_started transport' = transport_started transport ∧
    (is_checksum_address (private_key_to_address private_key) = true →
     ∃ msg, e = StateDBInvalid msg).
Proof.
  intros Hm Hbad. unfold __init__.
  destruct (is_checksum_address _); simpl.
  2: { do 2 eexists. split; [done|]. split; [done|]. intros ?; discriminate. }
  assert (Hi : is_initialized db = true).
  { unfold is_initialized. apply bool_decide_eq_true. rewrite Hm. by eexists. }
  rewrite Hi. simpl.
  unfold db_chain_id, server_address, monitoring_contract_address, same_address_opt.
  rewrite Hm. simpl.
  destruct (bool_decide (Some (meta_chain_id m) = Some (version_network web3))) eqn:Hc; simpl.
  2: { do 2 eexists. split; [done|]. split; [done|]. intros _. by eexists. }
  apply bool_decide_eq_true in Hc. injection Hc as Hc.
  destruct (is_same_address (meta_server_address m) _) eqn:Hs; simpl.
  2: { do 2 eexists. split; [done|]. split; [done|]. intros _. by eexists. }
  destruct (is_same_address (meta_monitoring_contract_address m) _) eqn:Hk; simpl.
  2: { do 2 eexists. split; [done|]. split; [done|]. intros _. by eexists. }
  destruct Hbad as [?|[?|?]]; done.
Qed.

(** [open_channels] gains an identifier only through its [ChannelOpened]
    event. *)
Lemma on_channel_event_unopened (ev : Event) (tx : Tx) (ms : MonitoringService) (id : Z) :
  ¬ (event ev = ChannelEvent.OPENED ∧ args_channel_identifier (args ev) = id) →
  id ∉ open_channels ms →
  id ∉ open_channels (on_channel_event ev tx ms).2.
Proof.
  intros Hev Hid. unfold on_channel_event.
  destruct (decide _) as [Ho|_]; [|destruct (decide _) as [_|_]; [|destruct (decide _) as [_|_]]].
  - run_handler. rewrite elem_of_union, elem_of_singleton. intros [?|?]; [done|].
    apply Hev. by split.
  - rewrite on_channel_close_run.
    destruct (close_balance_proof _ _ _); simpl; [|done].
    destruct (close_assertions ev); simpl; [|done].
    destruct (_ !! _); simpl; [|done].
    rewrite elem_of_difference. by intros [? _].
  - run_handler. by destruct (_ !! _).
  - done.
Qed.

Lemma on_channel_events_unopened (evs : list (Event * Tx)) (id : Z) :
  Forall (λ e, ¬ (event e.1 = ChannelEvent.OPENED ∧
                  args_channel_identifier (args e.1) = id)) evs →
  ∀ ms, id ∉ open_channels ms → id ∉ open_channels (on_channel_events evs ms).2.
Proof.
  induction 1 as [|[ev tx] evs Hev _ IH]; intros ms Hid; [done|].
  simpl. unfold mbind, M_bind.
  pose proof (on_channel_event_unopened ev tx ms id Hev Hid) as Hstep.
  destruct (on_channel_event ev tx ms) as [[[]|e] ms1]; simpl in *.
  - by apply IH.
  - done.
Qed.

(** C7, as the handler has it.  After a fresh service has processed any
    events none of which is the [ChannelOpened] of a given identifier, that
    identifier is not in [open_channels], and a [ChannelClosed] event for it
    is handled as the close of any other channel, by the same equation, in
    which [open_channels] is not consulted: the exception of the balance
    proof's constructor or the [AssertionError] of the two assertions is
    raised with nothing changed; otherwise the handler returns normally,
    with no change and no task when no request is stored for the identifier,
    and with the monitor task started when one is stored. *)
Theorem on_channel_close_of_unopened_channel
    (evs : list (Event * Tx)) (ms0 : MonitoringService) (ev : Event) (tx : Tx) :
  let channel_id := args_channel_identifier (args ev) in
  let ms := (on_channel_events evs ms0).2 in
  open_channels ms0 = ∅ →
  Forall (λ e, ¬ (event e.1 = ChannelEvent.OPENED ∧
                  args_channel_identifier (args e.1) = channel_id)) evs →
  (channel_id ∉ open_channels ms) ∧
  on_channel_close ev tx ms =
    match close_balance_proof (ms_web3 ms) ev tx with
    | Raised e => (Raised e, ms)
    | Returned _ =>
        if close_assertions ev
        then (Returned tt,
              match monitor_requests (state_db ms) !! channel_id with
              | None => ms
              | Some mr =>
                  set_open_channels (λ s, s ∖ {[channel_id]})
                    (set_task_list
                       (λ l, l ++ [OnChannelClose (monitor_contract ms) mr
                                                  (ms_private_key ms)])
                       ms)
              end)
        else (Raised AssertionError, ms)
    end.
Proof.
  cbv zeta. intros Hfresh Hevs. split.
  - apply on_channel_events_unopened; [done|]. rewrite Hfresh. apply not_elem_of_empty.
  - apply on_channel_close_run.
Qed.

End ServerProperties.

(** * The modelled service: scenario and crash equivalence *)

Section CrashProperties.
Import CrashModel.

(** Scenario 1 of the specification on the model: the close at block 10 with
    a settle timeout of 20 schedules the monitor action for block 26; it has
    not fired at block 25 and fires at block 26, whatever the ticks are. *)
Example happy_monitor_scheduled_at_26 :
  scheduled_action_rows (database (CrashScenario.run [10])) =
    [mkAction 26 ActionMonitoringTriggered (CrashScenario.TN, 3) CrashScenario.C2 false] ∧
  mock_calls (CrashScenario.run [10; 25]) = [] ∧
  mock_calls (CrashScenario.run [10; 25; 26]) = [monitor CrashScenario.request] ∧
  mock_calls (CrashScenario.run [26; 27]) = [monitor CrashScenario.request] ∧
  mock_calls (CrashScenario.run [30]) = [monitor CrashScenario.request].
Proof. vm_compute. done. Qed.

Variable cfg : Config.
Variable events : list (list Event).




















End CrashProperties.

(** * The scenarios of the specification on the handlers *)

Section Scenarios.
Import Scenario.
Local Existing Instance libs.

(** C2, refuted as stated.  Channel 3 is opened at block 2 with a request of
    nonce 1 stored, and closed at block 10.  The handler of the close event
    itself starts the monitor task: nothing waits for block
    10 + floor(20 * 8 / 10) = 26. *)
Lemma close_at_10_monitors_before_26 :
  let ms := after [opened_3] (service {[ 3 := request 3 1 ]}) in
  on_channel_close closed_3.1 closed_3.2 ms =
    (Returned tt,
     set_open_channels (λ _, ∅)
       (set_task_list (λ _, [OnChannelClose MSC (request 3 1) "key"]) ms)) ∧
  blockNumber closed_3.1 = 10 ∧
  10 + 20 * 8 / 10 = 26.
Proof. vm_compute. done. Qed.

(** C3, refuted as stated.  With a request stored, channel 3 is opened,
    closed and settled and no [MonitoringAssistedByMS] event is delivered:
    the settle handler starts the reward-claim task all the same.  With no
    request stored and such an event delivered before the settlement, no
    reward-claim task is started. *)
Lemma settle_claims_without_assist :
  task_list (after [opened_3; closed_3; settled_3] (service {[ 3 := request 3 1 ]})) =
    [OnChannelClose MSC (request 3 1) "key"; OnChannelSettle (request 3 1) MSC "key"] ∧
  task_list (after [opened_3; closed_3; assisted_3; settled_3] (service ∅)) = [].
Proof. vm_compute. done. Qed.

(** C4, refuted as stated.  A request for channel 3, which was never opened,
    is dropped without any error: the handler returns normally and the
    service is unchanged.  After channel 3 was closed with a request of
    nonce 1 stored, a request of nonce 2 is dropped in the same way. *)
Lemma request_dropped_silently :
  on_monitor_request (request 3 1) (service ∅) = (Returned tt, service ∅) ∧
  let closed := after [opened_3; closed_3] (service {[ 3 := request 3 1 ]}) in
  on_monitor_request (request 3 2) closed = (Returned tt, closed).
Proof. vm_compute. done. Qed.

(** C7, refuted as stated.  [ChannelClosed(id=999)] with no channel ever
    opened is handled without any exception; with no request stored the
    service is unchanged, and on a database that holds a request for 999 the
    monitor task is started. *)
Lemma close_of_unknown_channel_returns :
  on_channel_events [closed_999] (service ∅) = (Returned tt, service ∅) ∧
  on_channel_events [closed_999] (service {[ 999 := request 999 1 ]}) =
    (Returned tt,
     set_task_list (λ _, [OnChannelClose MSC (request 999 1) "key"])
       (service {[ 999 := request 999 1 ]})).
Proof. vm_compute. done. Qed.

(** Replay of [TokenNetworkCreated] for the token network of the scenario. *)
Lemma token_network_created_replay_witness :
  let ms := (handle_token_network_created (token_network_created 1) (service ∅)).2 in
  listeners_consistent ms ∧
  TN ∈ token_networks ms ∧
  (handle_token_network_created (token_network_created 1) ms).2 = ms.
Proof.
  cbv zeta.
  assert (H0 : listeners_consistent (service ∅)).
  { split; [constructor|]. intros a. simpl. set_solver. }
  destruct (handle_token_network_created_idempotent
              (token_network_created 1) (service ∅) H0) as (Hc & Hi & _).
  split; [exact Hc|]. split; [|exact Hi].
  vm_compute. reflexivity.
Defined.

(** Channel 3 closed while no request is stored, then a request arrives. *)
Lemma close_without_request_witness :
  let ms := after [opened_3] (service ∅) in
  on_channel_close closed_3.1 closed_3.2 ms = (Returned tt, ms) ∧
  3 ∈ open_channels (on_channel_close closed_3.1 closed_3.2 ms).2 ∧
  on_monitor_request (request 3 1) (on_channel_close closed_3.1 closed_3.2 ms).2 =
    (Returned tt, set_task_list (λ l, l ++ [StoreMonitorRequest node (request 3 1)]) ms).
Proof.
  cbv zeta. set (ms := after [opened_3] (service ∅)).
  assert (Hnone : monitor_requests (state_db ms) !! args_channel_identifier (args closed_3.1)
                  = None) by (vm_compute; reflexivity).
  destruct (on_channel_close_without_request closed_3.1 closed_3.2 ms Hnone)
    as (_ & Hret & Hopen).
  assert (Hin : args_channel_identifier (args closed_3.1) ∈ open_channels ms)
    by (vm_compute; reflexivity).
  destruct (Hopen Hin) as [Hstill Hreq].
  split; [apply Hret; reflexivity|]. split; [exact Hstill|].
  apply (Hreq (request 3 1)). reflexivity.
Defined.

(** Channel 3 settled with the request of nonce 1 stored. *)
Lemma settle_deletes_request_witness :
  let ms := after [opened_3; closed_3] (service {[ 3 := request 3 1 ]}) in
  monitor_requests (state_db ms) !! 3 = Some (request 3 1) ∧
  monitor_requests (state_db (on_channel_settled settled_3.1 settled_3.2 ms).2) !! 3 = None.
Proof.
  cbv zeta. set (ms := after [opened_3; closed_3] (service {[ 3 := request 3 1 ]})).
  assert (Hsome : monitor_requests (state_db ms) !! args_channel_identifier (args settled_3.1)
                  = Some (request 3 1)) by (vm_compute; reflexivity).
  split; [exact Hsome|].
  exact (proj2 (on_channel_settled_deletes_request settled_3.1 settled_3.2 ms
                  (request 3 1) Hsome)).
Defined.

(** Channel 3 closed at block 10 with the request of nonce 1 stored. *)
Lemma close_monitors_at_once_witness :
  let ms := after [opened_3] (service {[ 3 := request 3 1 ]}) in
  started ms (on_channel_close closed_3.1 closed_3.2 ms).2 =
    [OnChannelClose MSC (request 3 1) "key"] ∧
  on_channel_close (at_block 26 closed_3.1) closed_3.2 ms =
    on_channel_close closed_3.1 closed_3.2 ms.
Proof.
  cbv zeta. set (ms := after [opened_3] (service {[ 3 := request 3 1 ]})).
  assert (Hsome : monitor_requests (state_db ms) !! args_channel_identifier (args closed_3.1)
                  = Some (request 3 1)) by (vm_compute; reflexivity).
  destruct (on_channel_close_monitors_at_once closed_3.1 closed_3.2 ms
              (request 3 1) Hsome) as (_ & Hstarted & Hblock); [reflexivity|].
  split; [exact Hstarted|exact (Hblock 26)].
Defined.

(** Scenario 5: with a request of nonce 5 stored, intake of a request of
    nonce 3 for the same channel. *)
Lemma stale_request_witness :
  let ms := after [opened_3] (service {[ 3 := request 3 5 ]}) in
  3 ∈ open_channels ms ∧
  state_db (intake (λ _, true) (request 3 3) ms) = state_db ms.
Proof.
  cbv zeta. set (ms := after [opened_3] (service {[ 3 := request 3 5 ]})).
  split; [vm_compute; reflexivity|].
  assert (Hsome : monitor_requests (state_db ms)
                    !! channel_identifier (balance_proof (request 3 3))
                  = Some (request 3 5)) by (vm_compute; reflexivity).
  apply (proj1 (intake_monotone_nonce (λ _, true) (request 3 3) (request 3 5) ms Hsome)).
  simpl. lia.
Defined.

(** The node reports chain 5, the database was set up on chain 1. *)
Lemma init_wrong_chain_witness :
  ∃ msg transport',
    __init__ (mkWeb3 5) "key" (database ∅) (mkTransport 0 false) REGISTRY MSC 0 8 10 =
      (Raised (StateDBInvalid msg), database ∅, transport') ∧
    transport_started transport' = false.
Proof.
  assert (Hmeta : metadata (database ∅) = Some (mkMetadata 1 MSC MS_ADDRESS))
    by reflexivity.
  destruct (init_refuses_mismatch (mkWeb3 5) "key" (database ∅) (mkTransport 0 false)
              REGISTRY MSC 0 8 10 (mkMetadata 1 MSC MS_ADDRESS) Hmeta)
    as (e & tr & He & Hstarted & Hmsg).
  { left. simpl. lia. }
  destruct Hmsg as [msg ->]; [reflexivity|]. by exists msg, tr.
Defined.

(** [ChannelClosed(id=999)] after only channel 3 was opened. *)
Lemma close_of_unopened_channel_witness :
  let ms := after [opened_3] (service ∅) in
  (999 ∉ open_channels ms) ∧
  on_channel_close closed_999.1 closed_999.2 ms = (Returned tt, ms).
Proof.
  cbv zeta.
  assert (Hfresh : open_channels (service ∅) = ∅) by reflexivity.
  destruct (on_channel_close_of_unopened_channel [opened_3] (service ∅)
              closed_999.1 closed_999.2 Hfresh) as [Hnot Hrun].
  - repeat constructor. intros [_ Hid]. discriminate Hid.
  - split; [exact Hnot|]. etrans; [exact Hrun|]. vm_compute. reflexivity.
Defined.


End Scenarios.

(** * Laws of the handlers over runs of events *)

Section HandlerLaws.
Context `{Libs}.

(** The three handlers of channel events as equations. *)
Lemma on_channel_open_run (ev : Event) (tx : Tx) (ms : MonitoringService) :
  on_channel_open ev tx ms =
    (Returned tt,
     set_open_channels (λ s, s ∪ {[args_channel_identifier (args ev)]}) ms).
Proof. done. Qed.

Lemma on_channel_settled_run (ev : Event) (tx : Tx) (ms : MonitoringService) :
  on_channel_settled ev tx ms =
    (Returned tt,
     match monitor_requests (state_db ms) !! args_channel_identifier (args ev) with
     | None => ms
     | Some mr =>
         set_state_db (delete_monitor_request (args_channel_identifier (args ev)))
           (set_task_list
              (λ l, l ++ [OnChannelSettle mr (monitor_contract ms) (ms_private_key ms)])
              ms)
     end).
Proof. run_handler. by destruct (_ !! _). Qed.

Lemma on_channel_event_run (ev : Event) (tx : Tx) (ms : MonitoringService) :
  on_channel_event ev tx ms =
    if decide (event ev = ChannelEvent.OPENED) then on_channel_open ev tx ms
    else if decide (event ev = ChannelEvent.CLOSED) then on_channel_close ev tx ms
    else if decide (event ev = ChannelEvent.SETTLED) then on_channel_settled ev tx ms
    else (Returned tt, ms).
Proof. unfold on_channel_event. by repeat destruct (decide _). Qed.

(** A relation that every single event establishes, and that is reflexive
    and transitive, holds across a run of events. *)
Lemma on_channel_events_preserve (R : MonitoringService → MonitoringService → Prop) :
  (∀ ms, R ms ms) →
  (∀ a b c, R a b → R b c → R a c) →
  (∀ ev tx ms, R ms (on_channel_event ev tx ms).2) →
  ∀ evs ms, R ms (on_channel_events evs ms).2.
Proof.
  intros Hrefl Htrans Hstep evs.
  induction evs as [|[ev tx] evs IH]; intros ms; [apply Hrefl|].
  simpl. unfold mbind, M_bind.
  pose proof (Hstep ev tx ms) as H1.
  destruct (on_channel_event ev tx ms) as [[[]|e] ms1]; simpl in *.
  - eapply Htrans; [exact H1|apply IH].
  - exact H1.
Qed.

(** X1.  [order_participants] does not depend on the order of its arguments,
    returns its two arguments, and returns them in order: the second
    component is never smaller than the first. *)
Theorem order_participants_sorted (p1 p2 : Address) :
  order_participants p1 p2 = order_participants p2 p1 ∧
  (order_participants p1 p2 = (p1, p2) ∨ order_participants p1 p2 = (p2, p1)) ∧
  String.ltb (order_participants p1 p2).2 (order_participants p1 p2).1 = false.
Proof.
  unfold order_participants, String.ltb.
  rewrite (String.compare_antisym p2 p1).
  destruct (String.compare p1 p2) eqn:Hc; simpl.
  - assert (p1 = p2) as Heq by (by apply String.compare_eq_iff).
    subst p1. split; [done|]. split; [by right|]. by rewrite Hc.
  - split; [done|]. split; [by left|].
    by rewrite (String.compare_antisym p2 p1), Hc.
  - split; [done|]. split; [by right|]. by rewrite Hc.
Qed.

(** X2.  A run of channel events returns normally exactly when every
    [ChannelClosed] event in it is one the close handler gets past: the
    balance proof of its transaction is constructed and the two assertions
    hold.  No other event makes the callback raise, whatever the state of
    the service. *)
Theorem on_channel_events_returns_iff (evs : list (Event * Tx)) (ms : MonitoringService) :
  (on_channel_events evs ms).1 = Returned tt ↔
  Forall (λ e, event e.1 = ChannelEvent.CLOSED →
               close_well_formed (ms_web3 ms) e.1 e.2 = true) evs.
Proof.
  generalize (eq_refl (ms_web3 ms)). generalize (ms_web3 ms) at 1 3 as w.
  intros w Hw. revert ms Hw.
  induction evs as [|[ev tx] evs IH]; intros ms Hw; simpl.
  - split; [constructor|done].
  - unfold mbind, M_bind. rewrite Forall_cons. simpl.
    rewrite on_channel_event_run.
    destruct (decide (event ev = ChannelEvent.OPENED)) as [Ho|Ho].
    { rewrite on_channel_open_run, IH by done. rewrite Ho. split; [|tauto].
      intros ?. split; [discriminate|done]. }
    destruct (decide (event ev = ChannelEvent.CLOSED)) as [Hc|Hc].
    { destruct (close_well_formed w ev tx) eqn:Hwf.
      - rewrite on_channel_close_well_formed by (by rewrite <- Hw).
        rewrite IH by (by destruct (_ !! _)). tauto.
      - destruct (on_channel_close_malformed ev tx ms) as [e He]; [by rewrite <- Hw|].
        rewrite He. split; [discriminate|]. intros [Hbad _]. by specialize (Hbad Hc). }
    destruct (decide (event ev = ChannelEvent.SETTLED)) as [Hs|Hs].
    { rewrite on_channel_settled_run, IH by (simpl; by destruct (_ !! _)). tauto. }
    rewrite IH by done. tauto.
Qed.

Lemma channel_events_change_refl (ms : MonitoringService) :
  channel_events_change ms ms.
Proof.
  repeat split; try done. exists []. rewrite app_nil_r. by repeat split.
Qed.

Lemma channel_events_change_trans (a b c : MonitoringService) :
  channel_events_change a b → channel_events_change b c → channel_events_change a c.
Proof.
  intros (Hw1 & Hk1 & Ha1 & Hc1 & Ht1 & Hl1 & Hm1 & Hs1 & n1 & Hn1 & Hp1 & Hz1)
         (Hw2 & Hk2 & Ha2 & Hc2 & Ht2 & Hl2 & Hm2 & Hs2 & n2 & Hn2 & Hp2 & Hz2).
  repeat split; try congruence.
  - by etrans.
  - exists (n1 ++ n2). split; [by rewrite Hn2, Hn1, app_assoc|]. split.
    + apply Forall_app. split; [done|].
      eapply Forall_impl; [exact Hp2|]. intros task (id & mr & Hmr & Htask).
      exists id, mr. split; [by eapply lookup_weaken|]. by rewrite <- Hc1, <- Hk1.
    + rewrite List.filter_app, length_app. lia.
Qed.

Lemma channel_events_change_step (ev : Event) (tx : Tx) (ms : MonitoringService) :
  channel_events_change ms (on_channel_event ev tx ms).2.
Proof.
  rewrite on_channel_event_run.
  destruct (decide _) as [_|_]; [|destruct (decide _) as [_|_]; [|destruct (decide _) as [_|_]]].
  - rewrite on_channel_open_run. simpl.
    repeat split; try done. exists []. rewrite app_nil_r. by repeat split.
  - destruct (close_well_formed (ms_web3 ms) ev tx) eqn:Hwf.
    2: { destruct (on_channel_close_malformed ev tx ms Hwf) as [e ->].
         apply channel_events_change_refl. }
    rewrite on_channel_close_well_formed by done. simpl.
    destruct (_ !! _) as [mr|] eqn:Hmr; [|apply channel_events_change_refl].
    repeat split; try done. eexists. split; [done|]. split; [|done].
    repeat constructor. exists (args_channel_identifier (args ev)), mr. auto.
  - rewrite on_channel_settled_run. simpl.
    destruct (_ !! _) as [mr|] eqn:Hmr; [|apply channel_events_change_refl].
    repeat split; try done.
    + apply delete_subseteq.
    + eexists. split; [done|]. split.
      * repeat constructor. exists (args_channel_identifier (args ev)), mr. auto.
      * simpl. rewrite map_size_delete_Some by done.
        assert (size (monitor_requests (state_db ms)) ≠ 0%nat).
        { by apply map_size_ne_0_lookup_2 with (args_channel_identifier (args ev)). }
        lia.
  - apply channel_events_change_refl.
Qed.

Lemma on_channel_events_change (evs : list (Event * Tx)) (ms : MonitoringService) :
  channel_events_change ms (on_channel_events evs ms).2.
Proof.
  apply on_channel_events_preserve.
  - apply channel_events_change_refl.
  - apply channel_events_change_trans.
  - apply channel_events_change_step.
Qed.

(** X3.  Whatever channel events a service processes, it never removes a
    task, and every task it starts is a monitor or a reward-claim task for a
    request that was stored before the run, built with the service's own
    monitoring contract and private key. *)
Theorem on_channel_events_tasks (evs : list (Event * Tx)) (ms : MonitoringService) :
  ∃ new : list Task,
    task_list (on_channel_events evs ms).2 = task_list ms ++ new ∧
    Forall (λ task, ∃ id mr,
              monitor_requests (state_db ms) !! id = Some mr ∧
              (task = OnChannelClose (monitor_contract ms) mr (ms_private_key ms) ∨
               task = OnChannelSettle mr (monitor_contract ms) (ms_private_key ms)))
           new.
Proof.
  destruct (on_channel_events_change evs ms)
    as (_ & _ & _ & _ & _ & _ & _ & _ & new & Hnew & Hprov & _).
  by exists new.
Qed.

(** X4.  Channel events never add or alter a stored request (the requests
    after a run are among those before it), and never touch the database
    metadata, the known token networks or their listeners. *)
Theorem on_channel_events_frame (evs : list (Event * Tx)) (ms : MonitoringService) :
  monitor_requests (state_db (on_channel_events evs ms).2) ⊆ monitor_requests (state_db ms) ∧
  metadata (state_db (on_channel_events evs ms).2) = metadata (state_db ms) ∧
  token_networks (on_channel_events evs ms).2 = token_networks ms ∧
  token_network_listeners (on_channel_events evs ms).2 = token_network_listeners ms.
Proof.
  destruct (on_channel_events_change evs ms)
    as (_ & _ & _ & _ & Ht & Hl & Hm & Hs & _).
  done.
Qed.

(** X5.  Across any run of channel events, the reward-claim tasks started
    plus the requests still stored make up the requests stored before: each
    stored request leads to at most one reward claim. *)
Theorem on_channel_events_claims_once (evs : list (Event * Tx)) (ms : MonitoringService) :
  (length (List.filter is_claim (started ms (on_channel_events evs ms).2)) +
   size (monitor_requests (state_db (on_channel_events evs ms).2)))%nat =
    size (monitor_requests (state_db ms)).
Proof.
  destruct (on_channel_events_change evs ms)
    as (_ & _ & _ & _ & _ & _ & _ & _ & new & Hnew & _ & Hsize).
  by rewrite (started_append _ _ new).
Qed.

(** X6.  Settlement is handled once: after the settle handler has run for a
    channel, a further [ChannelSettled] event for the same channel returns
    normally, starts no task and changes nothing. *)
Theorem on_channel_settled_twice (ev ev' : Event) (tx tx' : Tx) (ms : MonitoringService) :
  args_channel_identifier (args ev') = args_channel_identifier (args ev) →
  on_channel_settled ev' tx' (on_channel_settled ev tx ms).2 =
    (Returned tt, (on_channel_settled ev tx ms).2).
Proof.
  intros Hid. rewrite (on_channel_settled_run ev tx ms). simpl.
  rewrite on_channel_settled_run, Hid.
  destruct (monitor_requests (state_db ms) !! _) as [mr|] eqn:Hmr; simpl.
  - by rewrite lookup_delete_eq.
  - by rewrite Hmr.
Qed.

(** X7.  The close handler does not remember that it has run: delivering
    twice a [ChannelClosed] event that it gets past (balance proof
    constructed, both assertions holding) while a request is stored for the
    channel starts two identical monitor tasks. *)
Theorem on_channel_close_replayed
    (ev : Event) (tx : Tx) (ms : MonitoringService) (mr : MonitorRequest) :
  monitor_requests (state_db ms) !! args_channel_identifier (args ev) = Some mr →
  close_well_formed (ms_web3 ms) ev tx = true →
  started ms (on_channel_close ev tx (on_channel_close ev tx ms).2).2 =
    [OnChannelClose (monitor_contract ms) mr (ms_private_key ms);
     OnChannelClose (monitor_contract ms) mr (ms_private_key ms)].
Proof.
  intros Hmr Hok. rewrite (on_channel_close_well_formed ev tx ms), Hmr by done. simpl.
  rewrite on_channel_close_well_formed by done. simpl. rewrite Hmr. simpl.
  apply started_append. simpl. by rewrite <- app_assoc.
Qed.

(** X8.  Once a [ChannelClosed] event that the handler gets past (balance
    proof constructed, both assertions holding) was handled with a request
    stored, later monitor requests for that channel are dropped: the handler
    returns normally and starts no store task. *)
Theorem on_monitor_request_after_monitored_close
    (ev : Event) (tx : Tx) (ms : MonitoringService) (mr req : MonitorRequest) :
  monitor_requests (state_db ms) !! args_channel_identifier (args ev) = Some mr →
  close_well_formed (ms_web3 ms) ev tx = true →
  channel_identifier (balance_proof req) = args_channel_identifier (args ev) →
  on_monitor_request req (on_channel_close ev tx ms).2 =
    (Returned tt, (on_channel_close ev tx ms).2).
Proof.
  intros Hmr Hok Hid. rewrite on_channel_close_well_formed, Hmr by done. simpl.
  rewrite on_monitor_request_run. simpl. rewrite Hid.
  destruct (decide _) as [Hin|_]; [|done].
  apply elem_of_difference in Hin as [_ Hne]. destruct Hne. by apply elem_of_singleton.
Qed.

(** X9.  After a channel was settled, a [ChannelClosed] event for it finds
    no request: the close handler changes nothing and starts no monitor
    task, and it returns normally when it gets past the event (balance proof
    constructed, both assertions holding). *)
Theorem on_channel_close_after_settled
    (settled closed : Event) (tx tx' : Tx) (ms : MonitoringService) :
  args_channel_identifier (args closed) = args_channel_identifier (args settled) →
  (on_channel_close closed tx' (on_channel_settled settled tx ms).2).2 =
    (on_channel_settled settled tx ms).2 ∧
  (close_well_formed (ms_web3 ms) closed tx' = true →
   on_channel_close closed tx' (on_channel_settled settled tx ms).2 =
     (Returned tt, (on_channel_settled settled tx ms).2)).
Proof.
  intros Hid. rewrite on_channel_settled_run. simpl.
  set (ms1 := match monitor_requests (state_db ms) !! _ with
              | Some mr => _ | None => ms end).
  assert (Hweb : ms_web3 ms1 = ms_web3 ms) by (unfold ms1; by destruct (_ !! _)).
  assert (Hnone : monitor_requests (state_db ms1) !! args_channel_identifier (args closed)
                  = None).
  { unfold ms1. rewrite Hid.
    destruct (monitor_requests (state_db ms) !! _) as [mr|] eqn:Hmr; simpl; [|done].
    apply lookup_delete_eq. }
  split.
  - rewrite on_channel_close_run, Hnone. by repeat case_match.
  - intros Hok. rewrite on_channel_close_well_formed by (by rewrite Hweb).
    by rewrite Hnone.
Qed.

(** X10.  The settle handler never removes a channel from [open_channels]: a
    channel that is open when any [ChannelSettled] event is handled still
    has its monitor requests handed to a store task afterwards. *)
Theorem on_monitor_request_after_settled
    (ev : Event) (tx : Tx) (ms : MonitoringService) (req : MonitorRequest) :
  channel_identifier (balance_proof req) ∈ open_channels ms →
  open_channels (on_channel_settled ev tx ms).2 = open_channels ms ∧
  on_monitor_request req (on_channel_settled ev tx ms).2 =
    (Returned tt,
     set_task_list (λ l, l ++ [StoreMonitorRequest (ms_web3 ms) req])
       (on_channel_settled ev tx ms).2).
Proof.
  intros Hin. rewrite on_channel_settled_run. simpl.
  rewrite on_monitor_request_run.
  destruct (monitor_requests (state_db ms) !! _) as [mr|]; simpl;
    (split; [done|]); by destruct (decide _).
Qed.

(** X11.  Handling [ChannelOpened] twice is the same as handling it once,
    and after it a monitor request for the opened channel is handed to a
    store task, whatever the service held before. *)
Theorem on_channel_open_enables_intake
    (ev : Event) (tx : Tx) (ms : MonitoringService) (req : MonitorRequest) :
  channel_identifier (balance_proof req) = args_channel_identifier (args ev) →
  on_channel_open ev tx (on_channel_open ev tx ms).2 =
    (Returned tt, (on_channel_open ev tx ms).2) ∧
  on_monitor_request req (on_channel_open ev tx ms).2 =
    (Returned tt,
     set_task_list (λ l, l ++ [StoreMonitorRequest (ms_web3 ms) req])
       (on_channel_open ev tx ms).2).
Proof.
  intros Hid. rewrite !on_channel_open_run. simpl. split.
  - f_equal. unfold set_open_channels. simpl. f_equal.
    by rewrite <- (assoc_L (∪)), (idemp_L (∪)).
  - rewrite on_monitor_request_run. simpl. rewrite Hid.
    destruct (decide _) as [_|Hn]; [done|]. destruct Hn.
    apply elem_of_union. right. by apply elem_of_singleton.
Qed.

End HandlerLaws.

(** * Laws of the registry handler over runs of events *)

Section RegistryLaws.
Context `{Libs}.

Lemma handle_token_network_created_run (ev : Event) (ms : MonitoringService) :
  let a := args_token_network_address (args ev) in
  handle_token_network_created ev ms =
    if created_assertions ev
    then (Returned tt,
          if decide (a ∈ token_networks ms) then ms
          else set_token_network_listeners
                 (λ l, l ++ [mkListener CONTRACT_TOKEN_NETWORK a (required_confirmations ms)
                                        (poll_interval ms) (blockNumber ev) true])
                 (set_token_networks (λ s, s ∪ {[a]}) ms))
    else (Raised AssertionError, ms).
Proof.
  unfold created_assertions. run_handler.
  destruct (is_checksum_address (args_token_network_address (args ev))); simpl; [|done].
  destruct (is_checksum_address (args_token_address (args ev))); simpl; [|done].
  by destruct (decide (_ ∉ _)), (decide (_ ∈ _)).
Qed.

Lemma handle_token_networks_created_preserve
    (R : MonitoringService → MonitoringService → Prop) :
  (∀ ms, R ms ms) →
  (∀ a b c, R a b → R b c → R a c) →
  (∀ ev ms, R ms (handle_token_network_created ev ms).2) →
  ∀ evs ms, R ms (handle_token_networks_created evs ms).2.
Proof.
  intros Hrefl Htrans Hstep evs.
  induction evs as [|ev evs IH]; intros ms; [apply Hrefl|].
  simpl. unfold mbind, M_bind.
  pose proof (Hstep ev ms) as H1.
  destruct (handle_token_network_created ev ms) as [[[]|e] ms1]; simpl in *.
  - eapply Htrans; [exact H1|apply IH].
  - exact H1.
Qed.

Lemma registry_events_change_refl (ms : MonitoringService) :
  registry_events_change ms ms.
Proof.
  repeat split; try done. exists []. by rewrite app_nil_r.
Qed.

Lemma registry_events_change_trans (a b c : MonitoringService) :
  registry_events_change a b → registry_events_change b c → registry_events_change a c.
Proof.
  intros (Hr1 & Hp1 & Ho1 & Ht1 & Hd1 & Hs1 & n1 & Hn1 & Hf1)
         (Hr2 & Hp2 & Ho2 & Ht2 & Hd2 & Hs2 & n2 & Hn2 & Hf2).
  repeat split; try congruence.
  - by etrans.
  - exists (n1 ++ n2). split; [by rewrite Hn2, Hn1, app_assoc|].
    apply Forall_app. split; [done|].
    eapply Forall_impl; [exact Hf2|]. intros l (Hnew & Hname & Hc & Hp & Hrun).
    repeat split; try congruence. intros Hin. apply Hnew. by apply Hs1.
Qed.

Lemma registry_events_change_step (ev : Event) (ms : MonitoringService) :
  registry_events_change ms (handle_token_network_created ev ms).2.
Proof.
  pose proof (handle_token_network_created_run ev ms) as E. cbv zeta in E. rewrite E.
  destruct (created_assertions ev); simpl; [|apply registry_events_change_refl].
  destruct (decide _) as [Hin|Hnew]; [apply registry_events_change_refl|].
  repeat split; try done.
  - simpl. apply union_subseteq_l.
  - eexists. split; [done|]. by repeat constructor.
Qed.

Lemma handle_token_networks_created_change (evs : list Event) (ms : MonitoringService) :
  registry_events_change ms (handle_token_networks_created evs ms).2.
Proof.
  apply handle_token_networks_created_preserve.
  - apply registry_events_change_refl.
  - apply registry_events_change_trans.
  - apply registry_events_change_step.
Qed.

Lemma handle_token_network_created_consistent (ev : Event) (ms : MonitoringService) :
  listeners_consistent ms →
  listeners_consistent (handle_token_network_created ev ms).2.
Proof.
  intros [Hnd Hset].
  pose proof (handle_token_network_created_run ev ms) as E. cbv zeta in E. rewrite E.
  destruct (created_assertions ev); simpl; [|done].
  destruct (decide _) as [Hin|Hnew]; [done|].
  split; simpl.
  - rewrite fmap_app. simpl. apply NoDup_app. split; [done|]. split.
    + intros x Hx Hx'%list_elem_of_singleton. subst x. apply Hnew, Hset, Hx.
    + apply NoDup_singleton.
  - intros b. rewrite fmap_app, elem_of_app, elem_of_union, Hset. simpl.
    rewrite elem_of_singleton, list_elem_of_singleton. done.
Qed.

Lemma handle_token_networks_created_outcome (evs : list Event) (ms : MonitoringService) :
  (handle_token_networks_created evs ms).1 = Returned tt ↔
  Forall (λ ev, created_assertions ev = true) evs.
Proof.
  revert ms. induction evs as [|ev evs IH]; intros ms; simpl.
  - by split; [constructor|].
  - unfold mbind, M_bind. rewrite Forall_cons.
    pose proof (handle_token_network_created_run ev ms) as E. cbv zeta in E. rewrite E.
    destruct (created_assertions ev); simpl.
    + rewrite IH. tauto.
    + split; [discriminate|]. by intros [? _].
Qed.

Lemma handle_token_networks_created_known (evs : list Event) (ms : MonitoringService) :
  Forall (λ ev, created_assertions ev = true) evs →
  token_networks (handle_token_networks_created evs ms).2 =
    token_networks ms ∪ list_to_set ((λ ev, args_token_network_address (args ev)) <$> evs).
Proof.
  intros Hok. revert ms. induction Hok as [|ev evs Hev _ IH]; intros ms; simpl.
  - by rewrite (right_id_L ∅ (∪)).
  - unfold mbind, M_bind.
    pose proof (handle_token_network_created_run ev ms) as E. cbv zeta in E.
    rewrite E, Hev. rewrite IH.
    destruct (decide _) as [Hin|Hnew]; simpl.
    + apply set_eq. intros x. rewrite !elem_of_union, elem_of_singleton.
      split; [tauto|]. intros [?|[->|?]]; tauto.
    + apply set_eq. intros x. rewrite !elem_of_union, elem_of_singleton. tauto.
Qed.

Lemma handle_token_networks_created_app (evs1 evs2 : list Event) (ms : MonitoringService) :
  Forall (λ ev, created_assertions ev = true) evs1 →
  handle_token_networks_created (evs1 ++ evs2) ms =
    handle_token_networks_created evs2 (handle_token_networks_created evs1 ms).2.
Proof.
  intros Hok. revert ms. induction Hok as [|ev evs Hev _ IH]; intros ms; simpl; [done|].
  unfold mbind, M_bind.
  pose proof (handle_token_network_created_run ev ms) as E. cbv zeta in E.
  rewrite E, Hev. apply IH.
Qed.

Lemma handle_token_networks_created_single (ev : Event) (ms : MonitoringService) :
  (handle_token_networks_created [ev] ms).2 = (handle_token_network_created ev ms).2.
Proof.
  simpl. unfold mbind, M_bind.
  by destruct (handle_token_network_created ev ms) as [[[]|e] ms1].
Qed.

(** X12.  A run of registry events returns normally exactly when every event
    in it passes the two checksum assertions, and then the known set is the
    old one together with the announced token network addresses. *)
Theorem handle_token_networks_created_returns_iff
    (evs : list Event) (ms : MonitoringService) :
  ((handle_token_networks_created evs ms).1 = Returned tt ↔
   Forall (λ ev, created_assertions ev = true) evs) ∧
  ((handle_token_networks_created evs ms).1 = Returned tt →
   token_networks (handle_token_networks_created evs ms).2 =
     token_networks ms ∪ list_to_set ((λ ev, args_token_network_address (args ev)) <$> evs)).
Proof.
  split; [apply handle_token_networks_created_outcome|].
  intros Hret. apply handle_token_networks_created_known.
  by apply handle_token_networks_created_outcome in Hret.
Qed.

(** X13.  On a service with one running listener per known network, any run
    of registry events keeps that: afterwards the listeners' addresses are
    pairwise distinct and are exactly the known set, every listener is
    running, and there are as many listeners as known networks. *)
Theorem handle_token_networks_created_one_listener_each
    (evs : list Event) (ms : MonitoringService) :
  listeners_consistent ms →
  Forall (λ l, running l = true) (token_network_listeners ms) →
  let ms' := (handle_token_networks_created evs ms).2 in
  listeners_consistent ms' ∧
  Forall (λ l, running l = true) (token_network_listeners ms') ∧
  length (token_network_listeners ms') = size (token_networks ms').
Proof.
  intros Hcons Hrun. cbv zeta.
  assert (Hcons' : listeners_consistent (handle_token_networks_created evs ms).2).
  { revert Hcons.
    apply (handle_token_networks_created_preserve
             (λ a b, listeners_consistent a → listeners_consistent b)); [done|auto|].
    intros ev ms0. apply handle_token_network_created_consistent. }
  split; [done|]. split.
  - destruct (handle_token_networks_created_change evs ms)
      as (_ & _ & _ & _ & _ & _ & new & Hnew & Hf).
    rewrite Hnew. apply Forall_app. split; [done|].
    eapply Forall_impl; [exact Hf|]. by intros l (_ & _ & _ & _ & ?).
  - destruct Hcons' as [Hnd Hset].
    rewrite <- (length_fmap contract_address).
    rewrite <- (size_list_to_set (C:=gset Address)) by done.
    f_equal. apply set_eq. intros x. rewrite elem_of_list_to_set. symmetry. apply Hset.
Qed.

(** X14.  Registry events never touch the open channels, the task list or
    the state database, never remove or alter a listener, and never remove a
    known network; every listener they add is started, for the token network
    contract, with the service's confirmations and poll interval. *)
Theorem handle_token_networks_created_frame (evs : list Event) (ms : MonitoringService) :
  let ms' := (handle_token_networks_created evs ms).2 in
  open_channels ms' = open_channels ms ∧
  task_list ms' = task_list ms ∧
  state_db ms' = state_db ms ∧
  token_networks ms ⊆ token_networks ms' ∧
  ∃ new : list BlockchainListener,
    token_network_listeners ms' = token_network_listeners ms ++ new ∧
    Forall (λ l, contract_name l = CONTRACT_TOKEN_NETWORK ∧
                 listener_required_confirmations l = required_confirmations ms ∧
                 listener_poll_interval l = poll_interval ms ∧
                 running l = true) new.
Proof.
  cbv zeta.
  destruct (handle_token_networks_created_change evs ms)
    as (_ & _ & Ho & Ht & Hd & Hs & new & Hnew & Hf).
  repeat split; try done. exists new. split; [done|].
  eapply Forall_impl; [exact Hf|]. by intros l (_ & ? & ? & ? & ?).
Qed.

(** X15.  The first announcement of a token network fixes its listener: in
    a run of well-formed registry events, the listener of an address that
    was not known before is the one created at the first event announcing
    it, started at that event's block; later events for the address,
    whatever their block, neither replace it nor add another. *)
Theorem first_announcement_fixes_listener
    (pre post : list Event) (ev : Event) (ms : MonitoringService) :
  let a := args_token_network_address (args ev) in
  let ms' := (handle_token_networks_created (pre ++ ev :: post) ms).2 in
  let listener :=
    mkListener CONTRACT_TOKEN_NETWORK a (required_confirmations ms) (poll_interval ms)
               (blockNumber ev) true in
  listeners_consistent ms →
  a ∉ token_networks ms →
  Forall (λ e, args_token_network_address (args e) ≠ a) pre →
  Forall (λ e, created_assertions e = true) (pre ++ ev :: post) →
  listener ∈ token_network_listeners ms' ∧
  ∀ l, l ∈ token_network_listeners ms' → contract_address l = a → l = listener.
Proof.
  cbv zeta. intros Hcons Hfresh Hpre Hok.
  apply Forall_app in Hok as [Hok1 Hok2]. apply Forall_cons in Hok2 as [Hev Hok3].
  rewrite (handle_token_networks_created_app pre _ ms Hok1).
  set (ms1 := (handle_token_networks_created pre ms).2).
  change (ev :: post) with ([ev] ++ post).
  rewrite (handle_token_networks_created_app [ev] post ms1) by by constructor.
  assert (Hfresh1 : args_token_network_address (args ev) ∉ token_networks ms1).
  { unfold ms1. rewrite handle_token_networks_created_known by done.
    rewrite elem_of_union, elem_of_list_to_set, list_elem_of_fmap.
    intros [?|(e & He & Hin)]; [done|].
    rewrite Forall_forall in Hpre. by apply (Hpre e Hin). }
  assert (Hcons1 : listeners_consistent ms1).
  { revert Hcons.
    apply (handle_token_networks_created_preserve
             (λ a b, listeners_consistent a → listeners_consistent b)); [done|auto|].
    intros ev0 ms0. apply handle_token_network_created_consistent. }
  destruct (handle_token_networks_created_change pre ms)
    as (Hrc & Hpi & _). fold ms1 in Hrc, Hpi.
  rewrite handle_token_networks_created_single.
  pose proof (handle_token_network_created_run ev ms1) as E. cbv zeta in E.
  rewrite E, Hev. simpl. destruct (decide _) as [?|_]; [done|].
  rewrite Hrc, Hpi.
  set (listener := mkListener CONTRACT_TOKEN_NETWORK (args_token_network_address (args ev))
                     (required_confirmations ms) (poll_interval ms) (blockNumber ev) true).
  set (ms2 := set_token_network_listeners (λ l, l ++ [listener])
                (set_token_networks
                   (λ s, s ∪ {[args_token_network_address (args ev)]}) ms1)).
  destruct (handle_token_networks_created_change post ms2)
    as (_ & _ & _ & _ & _ & _ & new & Hnew & Hf).
  rewrite Hnew. unfold ms2 in Hf |- *. simpl. split.
  - rewrite !elem_of_app, list_elem_of_singleton. auto.
  - intros l Hl Ha. rewrite !elem_of_app, list_elem_of_singleton in Hl.
    destruct Hl as [[Hl| ->]|Hl]; [|done|].
    + destruct Hfresh1. apply Hcons1. rewrite <- Ha. by apply list_elem_of_fmap_2.
    + rewrite Forall_forall in Hf. destruct (Hf l Hl) as (Hnotin & _).
      destruct Hnotin. simpl. rewrite Ha.
      apply elem_of_union. right. by apply elem_of_singleton.
Qed.

End RegistryLaws.

(** * Laws of the constructor and of the message callback *)

Section ConstructorLaws.
Context `{Libs}.

Lemma is_initialized_setup_db (cid : Z) (contract receiver : Address) (db : StateDBSqlite) :
  is_initialized (setup_db cid contract receiver db) = true.
Proof. unfold is_initialized. apply bool_decide_eq_true. by eexists. Qed.

(** X16.  On a database that holds no metadata, the constructor records the
    node's chain id, the monitoring contract address and its own address
    before it checks the registration: with a valid key and addresses that
    [is_same_address] accepts as their own, the database is set up (its
    stored requests kept) whether the constructor then returns the service
    or raises [ServiceNotRegistered]. *)
Theorem init_sets_up_fresh_database (web3 : Web3) (private_key : string)
    (db : StateDBSqlite) (transport : Transport)
    (registry monitor_contract_address : Address)
    (sync_start required_conf poll : Z) :
  let address := private_key_to_address private_key in
  let db' := setup_db (version_network web3) monitor_contract_address address db in
  metadata db = None →
  is_checksum_address address = true →
  is_same_address address address = true →
  is_same_address monitor_contract_address monitor_contract_address = true →
  ∃ out : outcome MonitoringService,
    __init__ web3 private_key db transport registry monitor_contract_address
             sync_start required_conf poll = (out, db', add_message_callback transport) ∧
    monitor_requests db' = monitor_requests db ∧
    if is_service_registered web3 monitor_contract_address address
    then ∃ ms, out = Returned ms ∧ state_db ms = db'
    else ∃ msg, out = Raised (ServiceNotRegistered msg).
Proof.
  cbv zeta. intros Hmeta Hkey Hself Hcontract. unfold __init__.
  rewrite Hkey. simpl.
  assert (Hi : is_initialized db = false).
  { unfold is_initialized. apply bool_decide_eq_false. rewrite Hmeta. by intros [? ?]. }
  rewrite Hi. simpl.
  rewrite bool_decide_eq_true_2 by done. simpl.
  unfold same_address_opt. simpl. rewrite Hself, Hcontract. simpl.
  destruct (is_service_registered _ _ _); simpl.
  - eexists. split; [done|]. split; [done|]. by eexists.
  - eexists. split; [done|]. split; [done|]. by eexists.
Qed.

(** The checks of the constructor leave a database that holds metadata as
    it is; their verdict does not depend on the transport; and on a database
    without metadata they run as on the database set up. *)
Lemma init_keeps_initialized_db (web3 : Web3) (private_key : string)
    (db : StateDBSqlite) (transport : Transport)
    (registry monitor_contract_address : Address)
    (sync_start required_conf poll : Z) :
  is_initialized db = true →
  (__init__ web3 private_key db transport registry monitor_contract_address
            sync_start required_conf poll).1.2 = db.
Proof. intros Hi. unfold __init__. rewrite Hi. simpl. by repeat case_match. Qed.

Lemma init_any_transport (web3 : Web3) (private_key : string)
    (db : StateDBSqlite) (transport transport' : Transport)
    (registry monitor_contract_address : Address)
    (sync_start required_conf poll : Z) :
  (__init__ web3 private_key db transport registry monitor_contract_address
            sync_start required_conf poll).1 =
  (__init__ web3 private_key db transport' registry monitor_contract_address
            sync_start required_conf poll).1.
Proof. unfold __init__. by repeat case_match. Qed.

Lemma init_on_fresh_db (web3 : Web3) (private_key : string)
    (db : StateDBSqlite) (transport : Transport)
    (registry monitor_contract_address : Address)
    (sync_start required_conf poll : Z) :
  is_initialized db = false →
  is_checksum_address (private_key_to_address private_key) = true →
  __init__ web3 private_key db transport registry monitor_contract_address
           sync_start required_conf poll =
  __init__ web3 private_key
           (setup_db (version_network web3) monitor_contract_address
                     (private_key_to_address private_key) db)
           transport registry monitor_contract_address sync_start required_conf poll.
Proof.
  intros Hi Hkey. unfold __init__.
  by rewrite Hkey, Hi, is_initialized_setup_db.
Qed.

(** X17.  Constructing again on the database a construction left, with the
    same arguments, has the same outcome and leaves that database as it is:
    a service that started once starts again on its own database, and one
    that was refused is refused again. *)
Theorem init_again_same_outcome (web3 : Web3) (private_key : string)
    (db : StateDBSqlite) (transport transport' : Transport)
    (registry monitor_contract_address : Address)
    (sync_start required_conf poll : Z) :
  let first := __init__ web3 private_key db transport registry monitor_contract_address
                        sync_start required_conf poll in
  (__init__ web3 private_key first.1.2 transport' registry monitor_contract_address
            sync_start required_conf poll).1 = first.1.
Proof.
  cbv zeta.
  destruct (is_checksum_address (private_key_to_address private_key)) eqn:Hkey.
  2: { unfold __init__. by rewrite Hkey. }
  destruct (is_initialized db) eqn:Hi.
  - rewrite init_keeps_initialized_db by done. apply init_any_transport.
  - rewrite (init_on_fresh_db _ _ db transport) by done.
    rewrite init_keeps_initialized_db by apply is_initialized_setup_db.
    apply init_any_transport.
Qed.

(** X18.  A service the constructor returns agrees with its database: the
    database it holds is the one the call left, with the stored requests it
    found, a chain id equal to the node's and addresses that
    [is_same_address] accepts; the service is registered; it has no open
    channel, no known token network, no listener and no task; its registry
    listener is created for the registry address and the start block but not
    started, and the transport got the message callback and was not
    started. *)
Theorem init_returns_consistent_service (web3 : Web3) (private_key : string)
    (db db' : StateDBSqlite) (transport transport' : Transport)
    (registry monitor_contract_address : Address)
    (sync_start required_conf poll : Z) (ms : MonitoringService) :
  __init__ web3 private_key db transport registry monitor_contract_address
           sync_start required_conf poll = (Returned ms, db', transport') →
  state_db ms = db' ∧
  monitor_requests db' = monitor_requests db ∧
  db_chain_id db' = Some (version_network web3) ∧
  same_address_opt (server_address db') (ms_address ms) = true ∧
  same_address_opt (monitoring_contract_address db') monitor_contract_address = true ∧
  is_service_registered web3 monitor_contract_address (ms_address ms) = true ∧
  ms_address ms = private_key_to_address private_key ∧
  open_channels ms = ∅ ∧ token_networks ms = ∅ ∧
  token_network_listeners ms = [] ∧ task_list ms = [] ∧
  token_network_registry_listener ms =
    Some (mkListener CONTRACT_TOKEN_NETWORK_REGISTRY registry required_conf poll
                     sync_start false) ∧
  transport' = add_message_callback transport.
Proof.
  unfold __init__.
  destruct (is_checksum_address _); simpl; [|discriminate].
  set (db1 := if negb (is_initialized db) then _ else db).
  assert (Hreq : monitor_requests db1 = monitor_requests db).
  { unfold db1. by destruct (is_initialized db). }
  destruct (bool_decide (db_chain_id db1 = _)) eqn:Hchain; simpl; [|discriminate].
  destruct (same_address_opt (server_address db1) _) eqn:Hserver; simpl; [|discriminate].
  destruct (same_address_opt (monitoring_contract_address db1) _) eqn:Hcontract; simpl;
    [|discriminate].
  destruct (is_service_registered _ _ _) eqn:Hreg; simpl; [|discriminate].
  intros [= <- <- <-]. simpl.
  apply bool_decide_eq_true in Hchain. by repeat split.
Qed.

(** X19.  A run of transport messages never raises and never touches the
    database or the open channels: it appends one store task for each
    monitor request whose channel is open, in the order of arrival, and
    nothing for any other message. *)
Theorem on_message_events_stores_open_requests
    (messages : list Message) (ms : MonitoringService) :
  on_message_events messages ms =
    (Returned tt,
     set_task_list
       (λ l, l ++ (StoreMonitorRequest (ms_web3 ms)
                     <$> omap (request_for (open_channels ms)) messages))
       ms).
Proof.
  revert ms. induction messages as [|message messages IH]; intros ms; simpl.
  - destruct ms. unfold mret, M_ret, set_task_list. simpl. by rewrite app_nil_r.
  - unfold mbind, M_bind.
    destruct message as [req|]; simpl.
    + rewrite on_monitor_request_run. rewrite IH.
      destruct (decide _) as [Hin|Hout]; simpl.
      * destruct ms. unfold set_task_list. simpl. by rewrite <- app_assoc.
      * done.
    + apply IH.
Qed.

End ConstructorLaws.

(** * The life of a monitored channel *)

Section LifecycleLaws.
Context `{Libs}.

Lemma on_channel_event_opened (ev : Event) (tx : Tx) (ms : MonitoringService) :
  event ev = ChannelEvent.OPENED → on_channel_event ev tx ms = on_channel_open ev tx ms.
Proof. intros E. rewrite on_channel_event_run, E. by destruct (decide _). Qed.

Lemma on_channel_event_closed (ev : Event) (tx : Tx) (ms : MonitoringService) :
  event ev = ChannelEvent.CLOSED → on_channel_event ev tx ms = on_channel_close ev tx ms.
Proof.
  intros E. rewrite on_channel_event_run, E.
  destruct (decide _) as [?|_]; [discriminate|]. by destruct (decide _).
Qed.

Lemma on_channel_event_settled (ev : Event) (tx : Tx) (ms : MonitoringService) :
  event ev = ChannelEvent.SETTLED → on_channel_event ev tx ms = on_channel_settled ev tx ms.
Proof.
  intros E. rewrite on_channel_event_run, E.
  destruct (decide _) as [?|_]; [discriminate|].
  destruct (decide _) as [?|_]; [discriminate|]. by destruct (decide _).
Qed.

(** X20.  The life of a monitored channel.  For a channel with a stored
    request, the events opened, closed and settled, delivered in this order,
    the close being one the handler gets past (balance proof constructed,
    both assertions holding), return normally and start exactly one monitor
    task and then one reward-claim task, both for that request; afterwards
    the request is deleted (and only it) and the channel is no longer open
    for intake. *)
Theorem monitored_channel_lifecycle
    (opened closed settled : Event) (tx1 tx2 tx3 : Tx)
    (ms : MonitoringService) (mr : MonitorRequest) :
  let id := args_channel_identifier (args opened) in
  let run := on_channel_events [(opened, tx1); (closed, tx2); (settled, tx3)] ms in
  event opened = ChannelEvent.OPENED →
  event closed = ChannelEvent.CLOSED →
  event settled = ChannelEvent.SETTLED →
  args_channel_identifier (args closed) = id →
  args_channel_identifier (args settled) = id →
  close_well_formed (ms_web3 ms) closed tx2 = true →
  monitor_requests (state_db ms) !! id = Some mr →
  run.1 = Returned tt ∧
  started ms run.2 =
    [OnChannelClose (monitor_contract ms) mr (ms_private_key ms);
     OnChannelSettle mr (monitor_contract ms) (ms_private_key ms)] ∧
  monitor_requests (state_db run.2) = delete id (monitor_requests (state_db ms)) ∧
  id ∉ open_channels run.2.
Proof.
  cbv zeta. intros Ho Hc Hs Hidc Hids Hok Hmr. simpl. unfold mbind, M_bind.
  rewrite on_channel_event_opened, on_channel_open_run by done.
  rewrite on_channel_event_closed, on_channel_close_well_formed by done.
  rewrite Hidc. simpl. rewrite Hmr.
  rewrite on_channel_event_settled, on_channel_settled_run by done.
  simpl. rewrite Hids, Hmr. simpl.
  split; [done|]. split; [|split].
  - apply started_append. simpl. by rewrite <- app_assoc.
  - done.
  - rewrite elem_of_difference, elem_of_singleton. by intros [_ ?].
Qed.

End LifecycleLaws.

(** * Independence of the two listeners *)

Section IndependenceLaws.
Context `{Libs}.

(** X21.  The registry callback and the channel callback do not interfere:
    handling a registry event and a channel event in either order leaves the
    same service, and neither changes whether the other returns or
    raises. *)
Theorem registry_and_channel_events_commute
    (created ev : Event) (tx : Tx) (ms : MonitoringService) :
  (on_channel_event ev tx (handle_token_network_created created ms).2).2 =
    (handle_token_network_created created (on_channel_event ev tx ms).2).2 ∧
  (on_channel_event ev tx (handle_token_network_created created ms).2).1 =
    (on_channel_event ev tx ms).1 ∧
  (handle_token_network_created created (on_channel_event ev tx ms).2).1 =
    (handle_token_network_created created ms).1.
Proof.
  pose proof (handle_token_network_created_run created) as E. cbv zeta in E.
  rewrite !E, !on_channel_event_run.
  destruct ms as [w k db a c r s rc pi oc tn ls tl rl].
  destruct (created_assertions created);
    destruct (decide (event ev = ChannelEvent.OPENED));
    [| destruct (decide (event ev = ChannelEvent.CLOSED));
       [| destruct (decide (event ev = ChannelEvent.SETTLED))] | |
       destruct (decide (event ev = ChannelEvent.CLOSED));
       [| destruct (decide (event ev = ChannelEvent.SETTLED))]];
    rewrite ?on_channel_open_run, ?on_channel_close_run, ?on_channel_settled_run;
    simpl;
    repeat (match goal with
            | |- context [if ?b then _ else _] => destruct b; simpl
            | |- context [match ?o with Some _ => _ | None => _ end] => destruct o; simpl
            | |- context [close_balance_proof ?w ?e ?t] =>
                destruct (close_balance_proof w e t); simpl
            end);
    done.
Qed.

(** X22.  A service that stores no request only accumulates channels:
    whatever channel events it processes, it starts no task, leaves the
    database as it is, and never removes a channel from [open_channels]. *)
Theorem on_channel_events_without_requests
    (evs : list (Event * Tx)) (ms : MonitoringService) :
  monitor_requests (state_db ms) = ∅ →
  task_list (on_channel_events evs ms).2 = task_list ms ∧
  state_db (on_channel_events evs ms).2 = state_db ms ∧
  open_channels ms ⊆ open_channels (on_channel_events evs ms).2.
Proof.
  intros Hempty.
  assert (Hrun : monitor_requests (state_db ms) = ∅ →
                 task_list (on_channel_events evs ms).2 = task_list ms ∧
                 state_db (on_channel_events evs ms).2 = state_db ms ∧
                 open_channels ms ⊆ open_channels (on_channel_events evs ms).2);
    [|by apply Hrun].
  apply (on_channel_events_preserve
           (λ a b, monitor_requests (state_db a) = ∅ →
                   task_list b = task_list a ∧ state_db b = state_db a ∧
                   open_channels a ⊆ open_channels b)).
  - done.
  - intros a b c Hab Hbc Ha. destruct (Hab Ha) as (Ht1 & Hd1 & Ho1).
    destruct Hbc as (Ht2 & Hd2 & Ho2); [by rewrite Hd1|].
    split; [congruence|]. split; [congruence|]. by etrans.
  - intros ev tx ms0 H0. rewrite on_channel_event_run.
    destruct (decide _) as [_|_]; [|destruct (decide _) as [_|_]; [|destruct (decide _) as [_|_]]].
    + rewrite on_channel_open_run. simpl. split; [done|]. split; [done|].
      apply union_subseteq_l.
    + rewrite on_channel_close_run, H0, lookup_empty. by repeat case_match.
    + rewrite on_channel_settled_run. simpl. by rewrite H0, lookup_empty.
    + done.
Qed.

End IndependenceLaws.

(** * The laws on the scenario *)

Section LawWitnesses.
Import Scenario.
Local Existing Instance libs.

(** Channel 3 settled twice. *)
Lemma settled_twice_witness :
  let ms := after [opened_3; closed_3] (service {[ 3 := request 3 1 ]}) in
  on_channel_settled settled_3.1 settled_3.2
    (on_channel_settled settled_3.1 settled_3.2 ms).2 =
    (Returned tt, (on_channel_settled settled_3.1 settled_3.2 ms).2).
Proof.
  cbv zeta. apply on_channel_settled_twice. reflexivity.
Defined.

(** The close of channel 3 delivered twice. *)
Lemma close_replayed_witness :
  let ms := after [opened_3] (service {[ 3 := request 3 1 ]}) in
  started ms (on_channel_close closed_3.1 closed_3.2
                (on_channel_close closed_3.1 closed_3.2 ms).2).2 =
    [OnChannelClose MSC (request 3 1) "key"; OnChannelClose MSC (request 3 1) "key"].
Proof.
  cbv zeta. set (ms := after [opened_3] (service {[ 3 := request 3 1 ]})).
  assert (Hmr : monitor_requests (state_db ms) !! args_channel_identifier (args closed_3.1)
                = Some (request 3 1)) by (vm_compute; reflexivity).
  apply (on_channel_close_replayed closed_3.1 closed_3.2 ms (request 3 1) Hmr).
  reflexivity.
Defined.

(** A request of nonce 2 after the monitored close of channel 3. *)
Lemma request_after_monitored_close_witness :
  let ms := after [opened_3] (service {[ 3 := request 3 1 ]}) in
  on_monitor_request (request 3 2) (on_channel_close closed_3.1 closed_3.2 ms).2 =
    (Returned tt, (on_channel_close closed_3.1 closed_3.2 ms).2).
Proof.
  cbv zeta. set (ms := after [opened_3] (service {[ 3 := request 3 1 ]})).
  assert (Hmr : monitor_requests (state_db ms) !! args_channel_identifier (args closed_3.1)
                = Some (request 3 1)) by (vm_compute; reflexivity).
  apply (on_monitor_request_after_monitored_close closed_3.1 closed_3.2 ms
           (request 3 1) (request 3 2) Hmr); reflexivity.
Defined.

(** The close of channel 3 delivered after its settlement. *)
Lemma close_after_settled_witness :
  let ms := after [opened_3] (service {[ 3 := request 3 1 ]}) in
  on_channel_close closed_3.1 closed_3.2 (on_channel_settled settled_3.1 settled_3.2 ms).2 =
    (Returned tt, (on_channel_settled settled_3.1 settled_3.2 ms).2).
Proof.
  cbv zeta. apply on_channel_close_after_settled; reflexivity.
Defined.

(** A request for channel 3, open and never closed, after a settlement. *)
Lemma request_after_settled_witness :
  let ms := after [opened_3] (service ∅) in
  3 ∈ open_channels ms ∧
  on_monitor_request (request 3 1) (on_channel_settled settled_3.1 settled_3.2 ms).2 =
    (Returned tt,
     set_task_list (λ l, l ++ [StoreMonitorRequest node (request 3 1)])
       (on_channel_settled settled_3.1 settled_3.2 ms).2).
Proof.
  cbv zeta. set (ms := after [opened_3] (service ∅)).
  assert (Hin : channel_identifier (balance_proof (request 3 1)) ∈ open_channels ms)
    by (vm_compute; reflexivity).
  split; [exact Hin|].
  exact (proj2 (on_monitor_request_after_settled settled_3.1 settled_3.2 ms
                  (request 3 1) Hin)).
Defined.

(** Channel 3 opened on a fresh service, then a request for it. *)
Lemma open_enables_intake_witness :
  on_monitor_request (request 3 1) (on_channel_open opened_3.1 opened_3.2 (service ∅)).2 =
    (Returned tt,
     set_task_list (λ l, l ++ [StoreMonitorRequest node (request 3 1)])
       (on_channel_open opened_3.1 opened_3.2 (service ∅)).2).
Proof.
  assert (Hid : channel_identifier (balance_proof (request 3 1)) =
                args_channel_identifier (args opened_3.1)) by reflexivity.
  exact (proj2 (on_channel_open_enables_intake opened_3.1 opened_3.2 (service ∅)
                  (request 3 1) Hid)).
Defined.

(** The token network announced at block 1 and again at block 5. *)
Lemma registry_run_witness :
  let evs := [token_network_created 1; token_network_created 5] in
  (handle_token_networks_created evs (service ∅)).1 = Returned tt ∧
  token_networks (handle_token_networks_created evs (service ∅)).2 =
    token_networks (service ∅) ∪
    list_to_set ((λ ev, args_token_network_address (args ev)) <$> evs).
Proof.
  cbv zeta.
  assert (Hret : (handle_token_networks_created
                    [token_network_created 1; token_network_created 5] (service ∅)).1
                 = Returned tt) by (vm_compute; reflexivity).
  split; [exact Hret|].
  exact (proj2 (handle_token_networks_created_returns_iff
                  [token_network_created 1; token_network_created 5] (service ∅)) Hret).
Defined.

Lemma one_listener_each_witness :
  let ms' := (handle_token_networks_created
                [token_network_created 1; token_network_created 5] (service ∅)).2 in
  listeners_consistent ms' ∧
  Forall (λ l, running l = true) (token_network_listeners ms') ∧
  length (token_network_listeners ms') = size (token_networks ms').
Proof.
  cbv zeta.
  assert (H0 : listeners_consistent (service ∅)).
  { split; [constructor|]. intros a. simpl. set_solver. }
  assert (H1 : Forall (λ l, running l = true) (token_network_listeners (service ∅)))
    by constructor.
  exact (handle_token_networks_created_one_listener_each
           [token_network_created 1; token_network_created 5] (service ∅) H0 H1).
Defined.

Lemma first_announcement_witness :
  let ms' := (handle_token_networks_created
                [token_network_created 1; token_network_created 5] (service ∅)).2 in
  mkListener CONTRACT_TOKEN_NETWORK TN 8 10 1 true ∈ token_network_listeners ms' ∧
  ∀ l, l ∈ token_network_listeners ms' → contract_address l = TN →
       l = mkListener CONTRACT_TOKEN_NETWORK TN 8 10 1 true.
Proof.
  cbv zeta.
  assert (H0 : listeners_consistent (service ∅)).
  { split; [constructor|]. intros a. simpl. set_solver. }
  assert (Hnew : args_token_network_address (args (token_network_created 1))
                 ∉ token_networks (service ∅)).
  { simpl. apply not_elem_of_empty. }
  apply (first_announcement_fixes_listener [] [token_network_created 5]
           (token_network_created 1) (service ∅) H0 Hnew).
  - constructor.
  - repeat constructor.
Defined.

(** Construction on a database that holds nothing. *)
Lemma init_fresh_database_witness :
  ∃ out,
    __init__ node "key" (mkStateDB None ∅) (mkTransport 0 false) REGISTRY MSC 0 8 10 =
      (out, setup_db 1 MSC MS_ADDRESS (mkStateDB None ∅),
       add_message_callback (mkTransport 0 false)).
Proof.
  assert (Hmeta : metadata (mkStateDB None ∅) = None) by reflexivity.
  destruct (init_sets_up_fresh_database node "key" (mkStateDB None ∅) (mkTransport 0 false)
              REGISTRY MSC 0 8 10 Hmeta) as (out & Hout & _); [reflexivity..|].
  exists out. exact Hout.
Defined.

(** Construction on the database of the scenario. *)
Lemma init_consistent_service_witness :
  __init__ node "key" (database ∅) (mkTransport 0 false) REGISTRY MSC 0 8 10 =
    (Returned (service ∅), database ∅, mkTransport 1 false) ∧
  db_chain_id (database ∅) = Some (version_network node) ∧
  task_list (service ∅) = [].
Proof.
  assert (Hinit : __init__ node "key" (database ∅) (mkTransport 0 false) REGISTRY MSC 0 8 10 =
                    (Returned (service ∅), database ∅, mkTransport 1 false))
    by (vm_compute; reflexivity).
  destruct (init_returns_consistent_service node "key" (database ∅) (database ∅)
              (mkTransport 0 false) (mkTransport 1 false) REGISTRY MSC 0 8 10
              (service ∅) Hinit)
    as (_ & _ & Hchain & _ & _ & _ & _ & _ & _ & _ & Htasks & _).
  split; [exact Hinit|]. split; [exact Hchain|exact Htasks].
Defined.

(** Channel 3 opened, closed and settled with the request of nonce 1 stored. *)
Lemma monitored_channel_lifecycle_witness :
  let run := on_channel_events [opened_3; closed_3; settled_3]
               (service {[ 3 := request 3 1 ]}) in
  run.1 = Returned tt ∧
  started (service {[ 3 := request 3 1 ]}) run.2 =
    [OnChannelClose MSC (request 3 1) "key"; OnChannelSettle (request 3 1) MSC "key"] ∧
  monitor_requests (state_db run.2) =
    delete 3 (monitor_requests (state_db (service {[ 3 := request 3 1 ]}))) ∧
  3 ∉ open_channels run.2.
Proof.
  cbv zeta.
  assert (Hmr : monitor_requests (state_db (service {[ 3 := request 3 1 ]}))
                  !! args_channel_identifier (args opened_3.1) = Some (request 3 1))
    by (vm_compute; reflexivity).
  apply (monitored_channel_lifecycle opened_3.1 closed_3.1 settled_3.1
           opened_3.2 closed_3.2 settled_3.2 (service {[ 3 := request 3 1 ]})
           (request 3 1)); first [exact Hmr|reflexivity].
Defined.

(** Channels 3 and 999 on a service that stores no request. *)
Lemma without_requests_witness :
  let ms' := (on_channel_events [opened_3; closed_3; settled_3; closed_999] (service ∅)).2 in
  task_list ms' = [] ∧ state_db ms' = database ∅ ∧ open_channels (service ∅) ⊆ open_channels ms'.
Proof.
  cbv zeta.
  assert (Hempty : monitor_requests (state_db (service ∅)) = ∅) by reflexivity.
  exact (on_channel_events_without_requests
           [opened_3; closed_3; settled_3; closed_999] (service ∅) Hempty).
Defined.

End LawWitnesses.
